(** * Polytopia-ELO-Bot: the authorization and entity-resolution gateway

    A shallow embedding of [src/modules/api.py] (the HTTP surface) and of
    [src/bot.py] (the command surface), and the properties of the
    specification checked against it.

    Python values are modelled as the code uses them: [int] as [Z], [str] as
    [string], [list] as [list], [dict] keyed by guild or member id as [gmap],
    a value that may be [None] as [option].  Effects (log records, calls to
    the Discord client, calls to the persistence layer, replies) are written
    by a small state-and-exception monad: a computation takes the store of
    the persistence layer and returns its outcome, the store it leaves and
    the calls it made, in program order. *)

From Stdlib Require Import ZArith String Ascii List Bool Lia DecimalString.
From stdpp Require Import base decidable option list gmap strings.

Import ListNotations.
Local Open Scope string_scope.
Local Open Scope Z_scope.

(* ===================================================================== *)
(** * Python values *)
(* ===================================================================== *)

Module Py.

(** ** Strings *)

(** [str(n)] for an [int]. *)
Definition str_of_int (n : Z) : string := NilZero.string_of_int (Z.to_int n).

(** [', '.join(items)], the separator of a list's [repr]. *)
Fixpoint join (sep : string) (items : list string) : string :=
  match items with
  | [] => ""
  | [x] => x
  | x :: rest => x ++ sep ++ join sep rest
  end.

(** [repr] of a [List[int]] and of a [List[List[int]]], as an f-string
    prints them. *)
Definition repr_int_list (l : list Z) : string :=
  "[" ++ join ", " (map str_of_int l) ++ "]".

Definition repr_int_list_list (l : list (list Z)) : string :=
  "[" ++ join ", " (map repr_int_list l) ++ "]".

(** [str.isspace] of one character.  A character is a code point below
    256; the code points above, some of which are white space too, are not
    representable in [ascii] and are left out of the model. *)
Definition isspace (c : ascii) : bool :=
  let n := nat_of_ascii c in
  ((9 <=? n) && (n <=? 13) || (28 <=? n) && (n <=? 32)
   || (n =? 133) || (n =? 160))%nat.

(** [s.split()] with no argument: the maximal runs of characters that are
    not white space, in order; leading, trailing and repeated white space
    yields no empty string.  [word] is the run being scanned, if any. *)
Fixpoint split_from (word : option string) (s : string) : list string :=
  match s with
  | EmptyString =>
      match word with Some w => [w] | None => [] end
  | String c rest =>
      if isspace c then
        match word with
        | Some w => w :: split_from None rest
        | None => split_from None rest
        end
      else
        match word with
        | Some w => split_from (Some (w ++ String c "")) rest
        | None => split_from (Some (String c "")) rest
        end
  end.

Definition split (s : string) : list string := split_from None s.

(** [needle in haystack] for two strings. *)
Fixpoint contains (needle haystack : string) : bool :=
  String.prefix needle haystack
  || match haystack with
     | EmptyString => false
     | String _ rest => contains needle rest
     end.

(** Truth value of a [str]: the empty string is false. *)
Definition truthy (s : string) : bool :=
  match s with EmptyString => false | _ => true end.

(** ** Exception classes *)

(** A class is named and has at most one base (the classes the code
    names all have single inheritance). *)
Inductive PyClass : Type :=
| Root (name : string)
| Derived (name : string) (base : PyClass).

Fixpoint class_eqb (c d : PyClass) : bool :=
  match c, d with
  | Root n, Root m => String.eqb n m
  | Derived n b, Derived m b' => String.eqb n m && class_eqb b b'
  | _, _ => false
  end.

(** [issubclass(c, d)]. *)
Fixpoint issubclass (c d : PyClass) : bool :=
  class_eqb c d
  || match c with
     | Root _ => false
     | Derived _ base => issubclass base d
     end.

Definition Exception : PyClass := Root "Exception".
Definition ValueError : PyClass := Derived "ValueError" Exception.
Definition AttributeError : PyClass := Derived "AttributeError" Exception.
Definition TypeError : PyClass := Derived "TypeError" Exception.

(** An exception object: its class, [str(exc)], and the lines that
    [traceback.format_exception] gives for it. *)
Record PyExc : Type := mkExc {
  exc_class : PyClass;
  exc_str : string;
  exc_traceback : list string
}.

Definition isinstance (e : PyExc) (c : PyClass) : bool :=
  issubclass (exc_class e) c.

(** [isinstance(e, (c1, c2, ...))]. *)
Definition isinstance_any (e : PyExc) (cs : list PyClass) : bool :=
  existsb (isinstance e) cs.

End Py.

(* ===================================================================== *)
(** * The Discord library, as far as the code uses it *)
(* ===================================================================== *)

Module Discord.
Import Py.

Definition DiscordException : PyClass := Derived "discord.DiscordException" Exception.
(** [discord.HTTPException]: any failed HTTP request to Discord. *)
Definition HTTPException : PyClass := Derived "discord.HTTPException" DiscordException.
(** Its subclasses for the status codes 404 and 403. *)
Definition NotFound : PyClass := Derived "discord.NotFound" HTTPException.
Definition Forbidden : PyClass := Derived "discord.Forbidden" HTTPException.

(** [discord.ext.commands] errors. *)
Definition CommandError : PyClass := Derived "commands.CommandError" DiscordException.
Definition CommandNotFound : PyClass := Derived "commands.CommandNotFound" CommandError.
Definition UserInputError : PyClass := Derived "commands.UserInputError" CommandError.
Definition CheckFailure : PyClass := Derived "commands.CheckFailure" CommandError.
Definition CommandInvokeError : PyClass := Derived "commands.CommandInvokeError" CommandError.

Record Role : Type := mkRole {
  role_id : Z;
  role_name : string;
  role_position : Z
}.

Record Member : Type := mkMember {
  member_id : Z;
  top_role : Role
}.

(** A guild of the client's cache: its id, its cached members
    ([guild.get_member]) and its roles. *)
Record Guild : Type := mkGuild {
  guild_id : Z;
  guild_members : gmap Z Member;
  guild_roles : list Role
}.

(** [discord.utils.get(roles, name=n)]: the first role of that name. *)
Definition utils_get_role (roles : list Role) (n : string) : option Role :=
  find (fun r => String.eqb (role_name r) n) roles.

(** [a < b] on two roles of the guild [g]: the default role (whose id is
    the guild's) is below every other one, then by position, then the
    newer id is the lower. *)
Definition role_lt (g : Guild) (a b : Role) : bool :=
  if role_id a =? guild_id g then negb (role_id b =? guild_id g)
  else if role_position a <? role_position b then true
  else if role_position a =? role_position b then role_id b <? role_id a
  else false.

End Discord.

(* ===================================================================== *)
(** * Effects: calls, exceptions and the monad of a request handler *)
(* ===================================================================== *)

Module Eff.
Import Py Discord.

Inductive Level : Type := DEBUG | INFO | WARNING | ERROR | CRITICAL.

(** The keyword arguments of [Game.create_game]. *)
Record CreateArgs : Type := mkCreateArgs {
  discord_groups : list (list Member);
  arg_guild_id : Z;
  arg_name : string;
  arg_is_ranked : bool;
  arg_is_mobile : bool
}.

(** What a handler does to the outside, in program order. *)
Inductive Call : Type :=
| Log (logger : string) (level : Level) (msg : string)
| Stdout (text : string)                (* print *)
| Authenticate (username password : string)
| GetGuild (guild : Z)                  (* client.get_guild: the cache *)
| GetMember (guild user : Z)            (* guild.get_member: the cache *)
| FetchMember (guild user : Z)          (* guild.fetch_member: remote *)
| CreateGame (args : CreateArgs)        (* Game.create_game *)
| SaveGame (game : Z) (notes : string)  (* db_game.save() *)
| GetUserRow (discord_id : Z)           (* DiscordMember.get_or_none *)
| GetGameRow (game : Z)                 (* Game.get_or_none *)
| Send (channel : Z) (text : string)    (* ctx.send *)
| Dispatch (command : string).          (* the command's callback runs *)

(** A raised exception: FastAPI's [HTTPException], or any other one. *)
Inductive Exn : Type :=
| HTTPError (status_code : Z) (detail : string) (headers : list (string * string))
| Uncaught (e : PyExc).

Inductive Outcome (A : Type) : Type :=
| Ret (a : A)
| Raise (e : Exn).
Arguments Ret {A} a.
Arguments Raise {A} e.

Section Monad.
Context {Store : Type}.

Definition M (A : Type) : Type := Store -> Outcome A * Store * list Call.

Definition ret {A} (a : A) : M A := fun s => (Ret a, s, []).

Definition raise {A} (e : Exn) : M A := fun s => (Raise e, s, []).

Definition bind {A B} (m : M A) (k : A -> M B) : M B :=
  fun s =>
    match m s with
    | (Ret a, s1, t1) =>
        match k a s1 with
        | (r, s2, t2) => (r, s2, (t1 ++ t2)%list)
        end
    | (Raise e, s1, t1) => (Raise e, s1, t1)
    end.

(** One call that returns nothing. *)
Definition call (c : Call) : M unit := fun s => (Ret tt, s, [c]).

(** [try: m  except cls as e: h e]: only the exceptions that are
    instances of [cls] are handed to [h]. *)
Definition try_except {A} (m : M A) (cls : PyClass) (h : PyExc -> M A) : M A :=
  fun s =>
    match m s with
    | (Raise (Uncaught e), s1, t1) =>
        if isinstance e cls then
          match h e s1 with
          | (r, s2, t2) => (r, s2, (t1 ++ t2)%list)
          end
        else (Raise (Uncaught e), s1, t1)
    | other => other
    end.

End Monad.

Declare Scope eff_scope.
Delimit Scope eff_scope with eff.
Notation "x <- m ;; k" := (bind m (fun x => k))
  (at level 100, m at next level, right associativity) : eff_scope.
Notation "m ;;; k" := (bind m (fun _ => k))
  (at level 100, right associativity) : eff_scope.

Section Loop.
Context {Store : Type}.
Local Open Scope eff_scope.

(** [out = []; for x in xs: out.append(f(x))]: stops at the first
    exception. *)
Fixpoint for_each {A B} (f : A -> M (Store:=Store) B) (xs : list A) : M (list B) :=
  match xs with
  | [] => ret []
  | x :: rest =>
      y <- f x ;;
      ys <- for_each f rest ;;
      ret (y :: ys)
  end.

End Loop.

(** The calls of a trace that reach the remote membership universe, and
    those that reach the persistence layer to write. *)
Definition is_fetch (c : Call) : bool :=
  match c with FetchMember _ _ => true | _ => false end.

Definition is_persistence (c : Call) : bool :=
  match c with CreateGame _ | SaveGame _ _ => true | _ => false end.

Definition is_save (c : Call) : bool :=
  match c with SaveGame _ _ => true | _ => false end.

Definition fetches (t : list Call) : list Call := List.filter is_fetch t.
Definition persistence (t : list Call) : list Call := List.filter is_persistence t.
Definition saves (t : list Call) : list Call := List.filter is_save t.

End Eff.

(* ===================================================================== *)
(** * [src/modules/api.py]: the HTTP surface *)
(* ===================================================================== *)

Module Api.
Import Py Discord Eff.
Local Open Scope eff_scope.

(** A JSON value, as a handler returns it. *)
#[local] Unset Elimination Schemes.
Inductive Json : Type :=
| JNull
| JBool (b : bool)
| JInt (n : Z)
| JStr (s : string)
| JArr (items : list Json)
| JObj (fields : list (string * Json)).
#[local] Set Elimination Schemes.

(** Every string that occurs in a JSON value, keys included. *)
Fixpoint json_strings (j : Json) : list string :=
  match j with
  | JStr s => [s]
  | JArr items =>
      (fix each (l : list Json) : list string :=
         match l with
         | [] => []
         | x :: rest => (json_strings x ++ each rest)%list
         end) items
  | JObj fields =>
      (fix each (l : list (string * Json)) : list string :=
         match l with
         | [] => []
         | (k, v) :: rest => k :: (json_strings v ++ each rest)%list
         end) fields
  | _ => []
  end.

(** An [ApiApplication] row: its granted scopes, one string. *)
Record ApiApplication : Type := mkApp { scopes : string }.

(** A [Game] model instance, as far as the handler touches it. *)
Record Game : Type := mkGame { id : Z; notes : string }.

Record HTTPBasicCredentials : Type := mkCreds {
  username : string;
  password : string
}.

(** [class NewGame(pydantic.BaseModel)]. *)
Record NewGame : Type := mkNewGame {
  game_name : string;
  guild_id : Z;
  is_ranked : bool;
  is_mobile : bool;
  game_notes : string;
  sides_discord_ids : list (list Z)
}.

(** The body of a request before the model is built: the three fields
    that have a default may be absent. *)
Record NewGameBody : Type := mkBody {
  body_game_name : string;
  body_guild_id : Z;
  body_is_ranked : option bool;
  body_is_mobile : option bool;
  body_notes : option string;
  body_sides_discord_ids : list (list Z)
}.

(** Building the model fills the absent fields with the defaults of the
    class: [is_ranked = False], [is_mobile = True], [notes = '']. *)
Definition parse_NewGame (b : NewGameBody) : NewGame :=
  {| game_name := body_game_name b;
     guild_id := body_guild_id b;
     is_ranked := default false (body_is_ranked b);
     is_mobile := default true (body_is_mobile b);
     game_notes := default "" (body_notes b);
     sides_discord_ids := body_sides_discord_ids b |}.

Section Handlers.
Context {Store : Type}.

(** The collaborators of the handlers.  The Discord client and the
    [models] module are not part of the two source files; they are taken
    as they answer.  [create_game] and [save] may change the store and may
    raise; [fetch_member] may raise. *)
Record World : Type := mkWorld {
  (** [client.get_guild]: the guilds of the client's cache. *)
  client_guilds : gmap Z Guild;
  (** [guild.fetch_member(user_id)], the remote fetch. *)
  fetch_member : Z -> Z -> PyExc + Member;
  (** [ApiApplication.authenticate(username, password)]. *)
  authenticate : string -> string -> Store -> option ApiApplication;
  (** [Game.create_game(...)]: the game and the warnings, or an
      exception. *)
  create_game : CreateArgs -> Store -> (PyExc + Game * list string) * Store;
  (** [db_game.save()]. *)
  save : Game -> Store -> option PyExc * Store;
  (** [DiscordMember.get_or_none(...)] followed by [as_json]. *)
  user_row : Z -> Store -> option (bool -> Json);
  (** [Game.get_or_none(...)] followed by [as_json]. *)
  game_row : Z -> Store -> option Json
}.

Variable w : World.

Definition api_log (level : Level) (msg : string) : M (Store:=Store) unit :=
  call (Log "polybot.api" level msg).

(** [async def get_discord_member(guild_id, user_id)]. *)
Definition get_discord_member (guild_id user_id : Z) : M (Store:=Store) Member :=
  call (GetGuild guild_id) ;;;
  match client_guilds w !! guild_id with
  | None =>
      raise (HTTPError 404
               ("Discord guild not found by ID " ++ str_of_int guild_id ++ ".") [])
  | Some guild =>
      call (GetMember guild_id user_id) ;;;
      match guild_members guild !! user_id with
      | Some member => ret member
      | None =>
          call (FetchMember guild_id user_id) ;;;
          match fetch_member w guild_id user_id with
          | inr member => ret member
          | inl e =>
              if isinstance e Discord.HTTPException then
                raise (HTTPError 404
                         ("Discord member not found by ID " ++ str_of_int user_id ++ ".") [])
              else raise (Uncaught e)
          end
      end
  end.

(** [async def get_scopes(credentials)]. *)
Definition get_scopes (credentials : HTTPBasicCredentials) : M (Store:=Store) (list string) :=
  call (Authenticate (username credentials) (password credentials)) ;;;
  app <- (fun s => (Ret (authenticate w (username credentials) (password credentials) s), s, [])) ;;
  match app with
  | Some app =>
      api_log INFO ("Successful app authentication for user " ++ username credentials) ;;;
      ret (split (scopes app))
  | None =>
      api_log WARNING
        ("Failed app authentication attempted with user " ++ username credentials) ;;;
      raise (HTTPError 401 "Incorrect app ID or token." [("WWW-Authenticate", "Basic")])
  end.

(** [x in scopes] for a list of strings. *)
Definition scope_in (x : string) (l : list string) : bool :=
  existsb (String.eqb x) l.

(** [GET /users/{discord_id}]. *)
Definition get_user (discord_id : Z) (scopes : list string) : M (Store:=Store) Json :=
  if negb (scope_in "users:read" scopes) then
    api_log WARNING
      ("FAILED users:read call attempted on discord_id " ++ str_of_int discord_id) ;;;
    raise (HTTPError 403 "Not authorised for scope users:read." [])
  else
    call (GetUserRow discord_id) ;;;
    user <- (fun s => (Ret (user_row w discord_id s), s, [])) ;;
    match user with
    | Some as_json =>
        api_log INFO ("users:read call returned on discord_id " ++ str_of_int discord_id) ;;;
        ret (as_json (scope_in "games:read" scopes))
    | None =>
        api_log DEBUG
          ("Failed (not found) users:read call attempted on discord_id "
             ++ str_of_int discord_id) ;;;
        raise (HTTPError 404 "User not found." [])
    end.

(** [GET /games/{game_id}]. *)
Definition get_game (game_id : Z) (scopes : list string) : M (Store:=Store) Json :=
  if negb (scope_in "games:read" scopes) then
    api_log WARNING ("FAILED games:read call attempted on game_id " ++ str_of_int game_id) ;;;
    raise (HTTPError 403 "Not authorised for scope games:read." [])
  else
    call (GetGameRow game_id) ;;;
    game <- (fun s => (Ret (game_row w game_id s), s, [])) ;;
    match game with
    | Some j =>
        api_log INFO ("games:read call returned on game_id " ++ str_of_int game_id) ;;;
        ret j
    | None =>
        api_log DEBUG
          ("Failed (not found) games:read call attempted on game_id " ++ str_of_int game_id) ;;;
        raise (HTTPError 404 "Game not found." [])
    end.

(** The call [Game.create_game(discord_groups=..., ...)]. *)
Definition Game_create_game (args : CreateArgs) : M (Store:=Store) (Game * list string) :=
  fun s =>
    match create_game w args s with
    | (inr r, s') => (Ret r, s', [CreateGame args])
    | (inl e, s') => (Raise (Uncaught e), s', [CreateGame args])
    end.

(** [db_game.notes = text; db_game.save()]. *)
Definition Game_save (db_game : Game) : M (Store:=Store) unit :=
  fun s =>
    match save w db_game s with
    | (None, s') => (Ret tt, s', [SaveGame (id db_game) (notes db_game)])
    | (Some e, s') => (Raise (Uncaught e), s', [SaveGame (id db_game) (notes db_game)])
    end.

(** [POST /game/new]. *)
Definition new_game (game : NewGame) (scopes : list string) : M (Store:=Store) Json :=
  api_log INFO
    ("games-write attempted with game info: " ++ game_name game ++ " / "
       ++ str_of_int (guild_id game) ++ " / "
       ++ repr_int_list_list (sides_discord_ids game)) ;;;
  if negb (scope_in "games:new" scopes) then
    api_log WARNING "FAILED games:write call (unauthorized)" ;;;
    raise (HTTPError 403 "Not authorised for scope games:new." [])
  else
    discord_user_sides <-
      for_each (fun side =>
                  for_each (fun discord_id => get_discord_member (guild_id game) discord_id)
                    side)
        (sides_discord_ids game) ;;
    created <-
      try_except
        (Game_create_game
           {| discord_groups := discord_user_sides;
              arg_guild_id := guild_id game;
              arg_name := game_name game;
              arg_is_ranked := is_ranked game;
              arg_is_mobile := is_mobile game |})
        ValueError
        (fun e =>
           api_log ERROR ("FAILED games:write call (creation error): " ++ exc_str e) ;;;
           raise (HTTPError 400 (exc_str e) [])) ;;
    let '(db_game, _warnings) := created in
    (if truthy (game_notes game) then
       Game_save {| id := id db_game; notes := game_notes game |}
     else ret tt) ;;;
    api_log INFO ("Game ID " ++ str_of_int (id db_game) ++ " created successfully") ;;;
    ret (JObj [("game_id", JInt (id db_game))]).

(** ** The routes: the dependency [get_scopes], then the handler *)

Inductive Request : Type :=
| GET_users (discord_id : Z)
| GET_games (game_id : Z)
| POST_game_new (body : NewGameBody).

Definition serve (credentials : HTTPBasicCredentials) (r : Request) : M (Store:=Store) Json :=
  scopes <- get_scopes credentials ;;
  match r with
  | GET_users discord_id => get_user discord_id scopes
  | GET_games game_id => get_game game_id scopes
  | POST_game_new body => new_game (parse_NewGame body) scopes
  end.

End Handlers.
Arguments World Store : clear implicits.

(** What the framework sends for an outcome: the returned value with
    status 200; an [HTTPException] with its status, its detail and its
    headers; status 500 for any other exception. *)
Record Response : Type := mkResponse {
  status : Z;
  body : Json;
  headers : list (string * string)
}.

Definition respond (o : Outcome Json) : Response :=
  match o with
  | Ret j => {| status := 200; body := j; headers := [] |}
  | Raise (HTTPError code detail hs) =>
      {| status := code; body := JObj [("detail", JStr detail)]; headers := hs |}
  | Raise (Uncaught _) =>
      {| status := 500; body := JStr "Internal Server Error"; headers := [] |}
  end.

End Api.

(* ===================================================================== *)
(** * [src/bot.py]: the command surface *)
(* ===================================================================== *)

Module Bot.
Import Py Discord Eff.
Local Open Scope eff_scope.

(** The [settings] module, which is not part of the two source files:
    the per-guild table [settings.config], the two accessors and the id of
    the main server. *)
Record Settings : Type := mkSettings {
  config : gmap Z (gmap string string);
  guild_setting : Z -> string -> string;
  get_setting : string -> string;
  server_ids_main : Z
}.

(** [bot.user.id]. *)
Record BotUser : Type := mkBot { bot_user_id : Z }.

Record Message : Type := mkMessage { message_guild : option Guild }.

(** A command: its qualified name, and whether an [on_error] handler of
    its own is attached to it. *)
Record Command : Type := mkCommand {
  qualified_name : string;
  has_on_error : bool
}.

Record Context : Type := mkContext {
  ctx_guild : option Guild;
  ctx_author : Member;
  ctx_channel : Z;
  ctx_command : option Command
}.

(** [str(ctx.command)]. *)
Definition str_command (c : option Command) : string :=
  match c with
  | Some c => qualified_name c
  | None => "None"
  end.

(** [hasattr(ctx.command, 'on_error')]. *)
Definition hasattr_on_error (c : option Command) : bool :=
  match c with
  | Some c => has_on_error c
  | None => false
  end.

Definition newline : string := String "010"%char "".
Definition dquote : string := String "034"%char "".

(** [commands.when_mentioned(bot, msg)]: the two ways to mention the
    bot, each followed by a space. *)
Definition when_mentioned (bot : BotUser) (msg : Message) : list string :=
  [ "<@" ++ str_of_int (bot_user_id bot) ++ "> ";
    "<@!" ++ str_of_int (bot_user_id bot) ++ "> " ].

(** [commands.when_mentioned_or(prefixes...)(bot, msg)]. *)
Definition when_mentioned_or (prefixes : list string) (bot : BotUser) (msg : Message)
  : list string :=
  (when_mentioned bot msg ++ prefixes)%list.

(** Reading [x.id] when [x] is [None]. *)
Definition none_has_no_id : Exn :=
  Uncaught (mkExc AttributeError "'NoneType' object has no attribute 'id'" []).

(** The verdicts of the gatekeeper. *)
Inductive Verdict : Type := allowed | denied_no_guild | denied_insufficient_role.

Section Handlers.
Context {Store : Type}.
Variable settings : Settings.

Definition root_log (level : Level) (msg : string) : M (Store:=Store) unit :=
  call (Log "root" level msg).

(** [def get_prefix(bot, message)]. *)
Definition get_prefix (bot : BotUser) (message : Message) : M (Store:=Store) (list string) :=
  match message_guild message with
  | Some guild =>
      match config settings !! guild_id guild with
      | Some _ =>
          ret (when_mentioned_or
                 [guild_setting settings (guild_id guild) "command_prefix"] bot message)
      | None =>
          root_log ERROR
            ("Message received not from allowed guild. ID " ++ str_of_int (guild_id guild)) ;;;
          ret (when_mentioned_or [get_setting settings "command_prefix"] bot message)
      end
  | None =>
      (* the else branch formats [message.guild.id] *)
      raise none_has_no_id
  end.

(** [async def globally_block_dms(ctx)]. *)
Definition globally_block_dms (ctx : Context) : M (Store:=Store) bool :=
  ret (match ctx_guild ctx with Some _ => true | None => false end).

(** [async def is_user(ctx)]. *)
Definition is_user (ctx : Context) : M (Store:=Store) bool :=
  match ctx_guild ctx with
  | None => raise none_has_no_id
  | Some guild =>
      if guild_id guild =? server_ids_main settings then
        match utils_get_role (guild_roles guild) "Rider" with
        | Some minimum_role =>
            if role_lt guild (top_role (ctx_author ctx)) minimum_role then
              call (Send (ctx_channel ctx)
                      ("You must attain " ++ dquote ++ "Rider" ++ dquote
                         ++ " role to use this bot")) ;;;
              ret false
            else ret true
        | None =>
            raise (Uncaught
                     (mkExc TypeError
                        "'<' not supported between instances of 'Role' and 'NoneType'" []))
        end
      else ret true
  end.

Definition ignored : list PyClass := [CommandNotFound; UserInputError; CheckFailure].

(** [async def on_command_error(ctx, exc)]. *)
Definition on_command_error (ctx : Context) (exc : PyExc) : M (Store:=Store) unit :=
  if hasattr_on_error (ctx_command ctx) then ret tt
  else if isinstance_any exc ignored then
    root_log WARNING
      ("Exception on ignored list raised in " ++ str_command (ctx_command ctx) ++ ". "
         ++ exc_str exc)
  else
    let exception_str := String.concat "" (exc_traceback exc) in
    root_log CRITICAL
      ("Ignoring exception in command " ++ str_command (ctx_command ctx) ++ ": "
         ++ exc_str exc ++ " " ++ exception_str) ;;;
    call (Stdout ("Exception raised. " ++ exc_str exc ++ newline ++ exception_str)) ;;;
    call (Send (ctx_channel ctx) ("Unhandled error: " ++ exc_str exc)).

(** ** The two global checks, as the command framework runs them

    The checks registered with [@bot.check] run in the order of their
    registration and the first false one ends the run: the command's
    callback is not called, and [CheckFailure] goes to
    [on_command_error]. *)
Definition gatekeeper (ctx : Context) : M (Store:=Store) Verdict :=
  in_guild <- globally_block_dms ctx ;;
  if negb in_guild then ret denied_no_guild
  else
    ranked <- is_user ctx ;;
    if negb ranked then ret denied_insufficient_role else ret allowed.

Definition invoke (ctx : Context) (command : Command) : M (Store:=Store) unit :=
  verdict <- gatekeeper ctx ;;
  match verdict with
  | allowed => call (Dispatch (qualified_name command))
  | _ =>
      on_command_error ctx
        (mkExc CheckFailure
           ("The global check functions for command " ++ qualified_name command
              ++ " failed.") [])
  end.

End Handlers.

Definition is_dispatch (c : Call) : bool :=
  match c with Dispatch _ => true | _ => false end.

Definition is_send (c : Call) : bool :=
  match c with Send _ _ => true | _ => false end.

End Bot.

(* ===================================================================== *)
(** * The words of the specification, as predicates on the model *)
(* ===================================================================== *)

Module Spec.
Import Py Discord Eff Api.

(** The three parts of a run. *)
Definition outcome {Store A} (x : Outcome A * Store * list Call) : Outcome A := x.1.1.
Definition store {Store A} (x : Outcome A * Store * list Call) : Store := x.1.2.
Definition trace {Store A} (x : Outcome A * Store * list Call) : list Call := x.2.

(** A computation that leaves the store alone and makes no persistence
    call. *)
Definition frames {Store A} (m : M (Store:=Store) A) : Prop :=
  forall s, store (m s) = s /\ persistence (trace (m s)) = [].

(** The member ids looked up in the cache, in program order. *)
Definition looked_up (t : list Call) : list Z :=
  omap (fun c => match c with GetMember _ u => Some u | _ => None end) t.

(** ** Shape preconditions of a GameRequest (specification, 4.4) *)

Definition nonempty_sides (g : NewGame) : list (list Z) :=
  List.filter (fun side => negb (Nat.eqb (length side) 0)) (sides_discord_ids g).

(** One identity appears in two sides. *)
Fixpoint duplicate_across (sides : list (list Z)) : bool :=
  match sides with
  | [] => false
  | side :: rest =>
      existsb (fun x => existsb (fun other => existsb (Z.eqb x) other) rest) side
      || duplicate_across rest
  end.

Definition violates_shape (g : NewGame) : bool :=
  (length (nonempty_sides g) <? 2)%nat
  || duplicate_across (sides_discord_ids g)
  || negb (truthy (game_name g)).

Definition is_validation_error {A} (o : Outcome A) : Prop :=
  exists reason, o = Raise (HTTPError 400 reason []).

(** "createGame returns ValidationError and issues zero identity-resolution
    calls and zero persistence calls" on a request that violates a shape
    precondition. *)
Definition rejected_before_any_call {Store} (w : World Store) (g : NewGame)
    (scopes : list string) (s : Store) : Prop :=
  violates_shape g = true ->
  is_validation_error (outcome (new_game w g scopes s))
  /\ fetches (trace (new_game w g scopes s)) = []
  /\ persistence (trace (new_game w g scopes s)) = [].

(** ** The scope each operation requires (specification, 6) *)

Definition required_scope (r : Request) : string :=
  match r with
  | GET_users _ => "users:read"
  | GET_games _ => "games:read"
  | POST_game_new _ => "games:new"
  end.

(** ** Outcomes of the Identity Resolver (specification, 4.3) *)

(** The outcome of a resolution when the member does not exist. *)
Definition member_not_found {A} (user_id : Z) : Outcome A :=
  Raise (HTTPError 404 ("Discord member not found by ID " ++ str_of_int user_id ++ ".") []).

(** "a fetch that fails for a reason other than the member not existing
    gives an outcome distinct from NotFound". *)
Definition transient_is_distinct {Store} (w : World Store) (guild user : Z) (s : Store)
  : Prop :=
  forall e, fetch_member w guild user = inl e ->
            isinstance e Discord.NotFound = false ->
            outcome (get_discord_member w guild user s) <> member_not_found user.

(** ** Warnings (specification, 4.4) *)

(** "the API response contains the gameId plus any warnings": every
    warning of the create operation occurs in the returned value. *)
Definition warnings_are_returned {Store} (w : World Store) (g : NewGame)
    (scopes : list string) (s : Store) : Prop :=
  forall j, outcome (new_game w g scopes s) = Ret j ->
  forall args created warnings s1,
    In (CreateGame args) (trace (new_game w g scopes s)) ->
    create_game w args s = (inr (created, warnings), s1) ->
    Forall (fun x => In x (json_strings j)) warnings.

(** "a failure in the note-attach step is reported as a non-fatal warning
    rather than an error": when the save of the note fails after the
    create, the run still returns a value. *)
Definition note_failure_is_a_warning {Store} (w : World Store) (g : NewGame)
    (scopes : list string) (s : Store) : Prop :=
  forall args created warnings s1 e s2,
    truthy (game_notes g) = true ->
    In (CreateGame args) (trace (new_game w g scopes s)) ->
    create_game w args s = (inr (created, warnings), s1) ->
    save w {| id := id created; notes := game_notes g |} s1 = (Some e, s2) ->
    exists j, outcome (new_game w g scopes s) = Ret j.

(** ** Scope sets (specification, 4.2) *)

(** A token: not empty, no white space. *)
Fixpoint no_space (s : string) : bool :=
  match s with
  | EmptyString => true
  | String c rest => negb (isspace c) && no_space rest
  end.

Definition token (s : string) : bool := truthy s && no_space s.

(** "two stored token strings that differ only in token order or
    duplication yield the same ScopeSet". *)
Definition same_scope_set {Store} (w1 w2 : World Store)
    (c1 c2 : HTTPBasicCredentials) (s : Store) : Prop :=
  forall app1 app2,
    authenticate w1 (username c1) (password c1) s = Some app1 ->
    authenticate w2 (username c2) (password c2) s = Some app2 ->
    (forall x, In x (split (scopes app1)) <-> In x (split (scopes app2))) ->
    outcome (get_scopes w1 c1 s) = outcome (get_scopes w2 c2 s).

(** ** The reply to an unhandled error (specification, 4.5 and 7) *)

(** "the reply is a generic message that never includes raw internal error
    text": one reply is sent and the text of the exception is not in it. *)
Definition reply_is_generic {Store} (ctx : Bot.Context) (exc : PyExc) (s : Store)
  : Prop :=
  isinstance_any exc Bot.ignored = false ->
  exists text,
    List.filter Bot.is_send (trace (Bot.on_command_error ctx exc s))
      = [Send (Bot.ctx_channel ctx) text]
    /\ contains (exc_str exc) text = false.

End Spec.

(* ===================================================================== *)
(** * A small world to run the handlers in *)
(* ===================================================================== *)

Module Demo.
Import Py Discord Eff Api Spec.

(** The store: the rows of the games table. *)
Definition Games : Type := list Game.

Definition rider : Role := mkRole 20 "Rider" 2.
Definition novice : Role := mkRole 10 "Novice" 1.

Definition member (n : Z) : Member := mkMember n rider.

(** Guild 1 with the members 5 and 6 in the cache. *)
Definition guild1 : Guild :=
  mkGuild 1 (<[5 := member 5]> (<[6 := member 6]> ∅)) [novice; rider].

Definition server_error : PyExc :=
  mkExc Discord.HTTPException "500 Internal Server Error (error code: 0)" [].
Definition unknown_member : PyExc :=
  mkExc Discord.NotFound "404 Not Found (error code: 10007): Unknown Member" [].
Definition connection_lost : PyExc :=
  mkExc (Derived "aiohttp.ClientConnectionError" Exception) "Connection reset by peer" [].

(** The remote membership: 7 exists, 8 does not, the fetch of 9 fails on
    the server side, the fetch of any other id loses its connection. *)
Definition remote (guild user : Z) : PyExc + Member :=
  if user =? 7 then inr (member 7)
  else if user =? 8 then inl unknown_member
  else if user =? 9 then inl server_error
  else inl connection_lost.

Definition credentials_table (username password : string) (s : Games)
  : option ApiApplication :=
  if String.eqb username "app1" && String.eqb password "secret1"
  then Some (mkApp "games:read games:new")
  else if String.eqb username "app2" && String.eqb password "secret2"
  then Some (mkApp "games:read")
  else if String.eqb username "app3" && String.eqb password "secret3"
  then Some (mkApp "games:new games:read")
  else None.

Definition too_few_sides : PyExc :=
  mkExc ValueError "Game must have at least 2 sides." [].

(** A create operation that refuses a game of fewer than two sides, and
    warns when the sides differ in size. *)
Definition create (args : CreateArgs) (s : Games)
  : (PyExc + Game * list string) * Games :=
  match discord_groups args with
  | a :: b :: _ =>
      let g := mkGame (1 + Z.of_nat (length s)) "" in
      (inr (g, if Nat.eqb (length a) (length b) then [] else ["side imbalance"]),
       (s ++ [g])%list)
  | _ => (inl too_few_sides, s)
  end.

Definition save_ok (g : Game) (s : Games) : option PyExc * Games :=
  (None, map (fun row => if id row =? id g then g else row) s).

Definition database_locked : PyExc :=
  mkExc (Derived "peewee.OperationalError" Exception) "database is locked" [].

Definition save_fails (g : Game) (s : Games) : option PyExc * Games :=
  (Some database_locked, s).

(** What the command framework raises when the callback of a command
    fails on the locked database. *)
Definition command_failed : PyExc :=
  mkExc CommandInvokeError
    "Command raised an exception: OperationalError: database is locked"
    ["Traceback (most recent call last):"; "peewee.OperationalError: database is locked"].

Definition world : World Games :=
  {| client_guilds := <[1 := guild1]> ∅;
     fetch_member := remote;
     authenticate := credentials_table;
     create_game := create;
     save := save_ok;
     user_row := fun _ _ => None;
     game_row := fun n s => (fun g => JObj [("id", JInt (id g)); ("notes", JStr (notes g))])
                            <$> List.find (fun g => id g =? n) s |}.

(** The same world with a persistence layer whose save fails. *)
Definition world_save_fails : World Games :=
  {| client_guilds := client_guilds world;
     fetch_member := remote;
     authenticate := credentials_table;
     create_game := create;
     save := save_fails;
     user_row := user_row world;
     game_row := game_row world |}.

Definition app1 : HTTPBasicCredentials := mkCreds "app1" "secret1".
Definition app2 : HTTPBasicCredentials := mkCreds "app2" "secret2".
Definition app3 : HTTPBasicCredentials := mkCreds "app3" "secret3".
Definition stranger : HTTPBasicCredentials := mkCreds "app1" "guess".

(** Requests. *)
Definition two_sides : NewGame := mkNewGame "Duel" 1 false true "" [[5]; [6]].
Definition one_side : NewGame := mkNewGame "Alone" 1 false true "" [[7]].
Definition uneven : NewGame := mkNewGame "Uneven" 1 true true "" [[5; 6]; [7]].
Definition with_note : NewGame := mkNewGame "Noted" 1 false true "first to 3 cities" [[5]; [6]].
Definition bare_body : NewGameBody := mkBody "Duel" 1 None None None [[5]; [6]].

(** What the resolution of [one_side], of [uneven] and of [with_note]
    gives, and the arguments the create operation then receives. *)
Definition one_side_members : list (list Member) := [[member 7]].
Definition one_side_calls : list Call := [GetGuild 1; GetMember 1 7; FetchMember 1 7].
Definition one_side_args : CreateArgs := mkCreateArgs one_side_members 1 "Alone" false true.

Definition uneven_args : CreateArgs :=
  mkCreateArgs [[member 5; member 6]; [member 7]] 1 "Uneven" true true.

Definition with_note_members : list (list Member) := [[member 5]; [member 6]].
Definition with_note_calls : list Call :=
  [GetGuild 1; GetMember 1 5; GetGuild 1; GetMember 1 6].
Definition with_note_args : CreateArgs := mkCreateArgs with_note_members 1 "Noted" false true.

(** The command surface. *)
Definition settings : Bot.Settings :=
  Bot.mkSettings (<[1 := <["command_prefix" := "$"]> ∅]> ∅)
    (fun _ _ => "$") (fun _ => "!") 1.

Definition polybot : Bot.BotUser := Bot.mkBot 42.
Definition guild2 : Guild := mkGuild 2 ∅ [].
Definition from_guild2 : Bot.Message := Bot.mkMessage (Some guild2).
Definition direct_message : Bot.Context :=
  Bot.mkContext None (member 5) 77 (Some (Bot.mkCommand "newgame" false)).
Definition in_guild1 : Bot.Context :=
  Bot.mkContext (Some guild1) (member 5) 78 (Some (Bot.mkCommand "newgame" false)).

End Demo.

(* ===================================================================== *)
(** * [src/bot.py]: loading the extensions at start-up *)
(* ===================================================================== *)

Module Startup.
Import Py Eff.
Local Open Scope eff_scope.

Definition initial_extensions : list string :=
  ["modules.games"; "modules.help"; "modules.game_import_export"; "modules.matchmaking"].

Section Loader.
Context {Store : Type}.

(** [bot.load_extension(name)] of the command framework, on the state of
    the bot: it may raise, and it leaves a state. *)
Variable load : string -> Store -> option PyExc * Store.

Definition load_extension (name : string) : M (Store:=Store) unit :=
  fun s =>
    match load name s with
    | (None, s') => (Ret tt, s', [])
    | (Some e, s') => (Raise (Uncaught e), s', [])
    end.

(** The loop over [initial_extensions]: one call outside the [try], one
    call inside it. *)
Fixpoint load_extensions (extensions : list string) : M (Store:=Store) unit :=
  match extensions with
  | [] => ret tt
  | extension :: rest =>
      load_extension extension ;;;
      try_except (load_extension extension) Exception
        (fun e =>
           call (Stdout ("Failed to load extension " ++ extension ++ ": " ++ exc_str e))) ;;;
      load_extensions rest
  end.

End Loader.

End Startup.

(* ===================================================================== *)
(** * Further observations on a run *)
(* ===================================================================== *)

Module Obs.
Import Py Discord Eff Api Spec.

Definition is_stdout (c : Call) : bool :=
  match c with Stdout _ => true | _ => false end.

(** The calls that go to the Discord client. *)
Definition is_client (c : Call) : bool :=
  match c with
  | GetGuild _ | GetMember _ _ | FetchMember _ _ => true
  | _ => false
  end.

Definition client_calls (t : list Call) : list Call := List.filter is_client t.

(** The calls that follow the resolution: not to the client, and no second
    create. *)
Definition after_create (rest : list Call) : Prop :=
  Forall (fun c => is_client c = false /\ forall a, c <> CreateGame a) rest.

(** A string of white space only. *)
Fixpoint blank (s : string) : bool :=
  match s with
  | EmptyString => true
  | String c rest => isspace c && blank rest
  end.

(** The member that the id [user] stands for in the guild [guild]: the one
    of the cache when the cache has one, else the one the remote fetch
    gives. *)
Definition resolved_by {Store} (w : World Store) (guild user : Z) (m : Member) : Prop :=
  exists g, client_guilds w !! guild = Some g
            /\ (guild_members g !! user = Some m
                \/ (guild_members g !! user = None /\ fetch_member w guild user = inr m)).

(** The loader of the command framework refuses an extension that is
    loaded already: after a load that succeeded, loading the same name
    again raises an [Exception] and leaves the state. *)
Definition refuses_reload {Store} (load : string -> Store -> option PyExc * Store) : Prop :=
  forall name s s',
    load name s = (None, s') ->
    exists e, load name s' = (Some e, s') /\ isinstance e Exception = true.

End Obs.

(* ===================================================================== *)
(** * More of the small world *)
(* ===================================================================== *)

Module Cases.
Import Py Discord Eff Api Spec Demo.

(** A loader that keeps the names it has loaded, refuses a name it holds
    and cannot import [modules.broken]. *)
Definition ExtensionAlreadyLoaded : PyClass :=
  Derived "commands.ExtensionAlreadyLoaded"
    (Derived "commands.ExtensionError" DiscordException).

Definition already_loaded (name : string) : PyExc :=
  mkExc ExtensionAlreadyLoaded ("Extension '" ++ name ++ "' is already loaded.") [].

Definition no_such_module : PyExc :=
  mkExc (Derived "ModuleNotFoundError" (Derived "ImportError" Exception))
    "No module named 'modules.broken'" [].

Definition loader (name : string) (loaded : list string) : option PyExc * list string :=
  if existsb (String.eqb name) loaded then (Some (already_loaded name), loaded)
  else if String.eqb name "modules.broken" then (Some no_such_module, loaded)
  else (None, (loaded ++ [name])%list).

(** The line printed for an extension that is held already. *)
Definition reported (name : string) : Call :=
  Stdout ("Failed to load extension " ++ name ++ ": " ++ exc_str (already_loaded name)).

(** Requests. *)
Definition no_identity : NewGame := mkNewGame "Empty" 3 false true "" [[]; []].
Definition unknown_guild : NewGame := mkNewGame "Lost" 3 false true "" [[]; [5]; [6]].
Definition stops_at_8 : NewGame := mkNewGame "Gap" 1 false true "" [[5; 7]; [8; 6]; [9]].

(** A world whose create operation loses its database. *)
Definition create_crashes (args : CreateArgs) (s : Games)
  : (PyExc + Game * list string) * Games :=
  (inl database_locked, s).

Definition world_create_crashes : World Games :=
  {| client_guilds := client_guilds world;
     fetch_member := remote;
     authenticate := credentials_table;
     create_game := create_crashes;
     save := save_ok;
     user_row := user_row world;
     game_row := game_row world |}.

(** A world with one user row, and an application of blank scopes. *)
Definition user_json (include_games : bool) : Json :=
  JObj [("discord_id", JInt 5);
        ("games", if include_games then JArr [JInt 1] else JNull)].

Definition world_with_user : World Games :=
  {| client_guilds := client_guilds world;
     fetch_member := remote;
     authenticate := fun u p s =>
       if String.eqb u "reader" then Some (mkApp "users:read")
       else if String.eqb u "blank" then Some (mkApp "   ")
       else if String.eqb u "tabs"
       then Some (mkApp (" users:read" ++ String "009" (String "010" "games:read  ")))
       else credentials_table u p s;
     create_game := create;
     save := save_ok;
     user_row := fun n s => if n =? 5 then Some user_json else None;
     game_row := game_row world |}.

Definition reader : HTTPBasicCredentials := mkCreds "reader" "r".
Definition blank_app : HTTPBasicCredentials := mkCreds "blank" "b".

(** The command surface: a member of the main server below the rank, one
    holding the rank role itself, and a server with no role of that name. *)
Definition newcomer : Member := mkMember 9 novice.
Definition newgame : Bot.Command := Bot.mkCommand "newgame" false.
Definition newcomer_in_guild1 : Bot.Context :=
  Bot.mkContext (Some guild1) newcomer 78 (Some newgame).
Definition in_guild2 : Bot.Context :=
  Bot.mkContext (Some guild2) newcomer 79 (Some newgame).
Definition settings_main2 : Bot.Settings :=
  Bot.mkSettings (Bot.config settings) (Bot.guild_setting settings)
    (Bot.get_setting settings) 2.
Definition from_guild1 : Bot.Message := Bot.mkMessage (Some guild1).
Definition private : Bot.Message := Bot.mkMessage None.
Definition bad_argument : PyExc :=
  mkExc (Derived "commands.BadArgument" UserInputError)
    "Converting to int failed for parameter game_id." [].

End Cases.

(* ===================================================================== *)
(** * Properties of the HTTP surface *)
(* ===================================================================== *)

Module EffProofs.
Import Eff.
Local Open Scope eff_scope.

Section Laws.
Context {Store : Type}.

Lemma bind_ret_l {A B} (a : A) (k : A -> M (Store:=Store) B) (s : Store) :
  (x <- ret a ;; k x) s = k a s.
Proof. unfold bind, ret. by destruct (k a s) as [[r s'] t]. Qed.

Lemma bind_ret_r {A} (m : M (Store:=Store) A) (s : Store) :
  (x <- m ;; ret x) s = m s.
Proof.
  unfold bind, ret. destruct (m s) as [[[a|e] s'] t]; [|done].
  by rewrite app_nil_r.
Qed.

Lemma bind_assoc {A B C} (m : M (Store:=Store) A) (f : A -> M B) (g : B -> M C) (s : Store) :
  (y <- (x <- m ;; f x) ;; g y) s = (x <- m ;; y <- f x ;; g y) s.
Proof.
  unfold bind. destruct (m s) as [[[a|e] s1] t1]; [|done].
  destruct (f a s1) as [[[b|e] s2] t2]; [|done].
  destruct (g b s2) as [[r s3] t3]. by rewrite app_assoc.
Qed.

(** An exception ends the computation where it is raised. *)
Lemma bind_raise {A B} (e : Exn) (k : A -> M (Store:=Store) B) (s : Store) :
  (x <- raise e ;; k x) s = (Raise e, s, []).
Proof. done. Qed.

(** The loop over no element and over one more element. *)
Lemma for_each_app {A B} (f : A -> M (Store:=Store) B) (xs ys : list A) (s : Store) :
  for_each f (xs ++ ys) s
  = (bs <- for_each f xs ;; cs <- for_each f ys ;; ret (bs ++ cs)%list) s.
Proof.
  revert s. induction xs as [|x xs IH]; intros s; simpl.
  - rewrite bind_ret_l. unfold bind, ret.
    destruct (for_each f ys s) as [[[cs|e] s'] t]; [|done].
    rewrite app_nil_r. reflexivity.
  - unfold bind. destruct (f x s) as [[[b|e] s1] t1]; [|done].
    rewrite IH. unfold bind, ret.
    destruct (for_each f xs s1) as [[[bs|e] s2] t2]; [|done].
    destruct (for_each f ys s2) as [[[cs|e] s3] t3]; simpl;
      rewrite ?app_nil_r, <- ?app_assoc; reflexivity.
Qed.

End Laws.

End EffProofs.

Module ApiProofs.
Import Py Discord Eff Api Spec.
Local Open Scope eff_scope.

Ltac run_step :=
  unfold bind, call, ret, raise, api_log, outcome, store, trace; simpl.

Section Resolution.
Context {Store : Type}.
Variable w : World Store.

Lemma persistence_app (t1 t2 : list Call) :
  persistence (t1 ++ t2) = (persistence t1 ++ persistence t2)%list.
Proof. unfold persistence. apply List.filter_app. Qed.

Lemma looked_up_app (t1 t2 : list Call) :
  looked_up (t1 ++ t2) = (looked_up t1 ++ looked_up t2)%list.
Proof. unfold looked_up. apply omap_app. Qed.

Lemma get_discord_member_frames guild user :
  frames (get_discord_member w guild user).
Proof.
  intros s. unfold get_discord_member. run_step.
  destruct (client_guilds w !! guild) as [g|]; simpl; [|done].
  destruct (guild_members g !! user) as [m|]; simpl; [done|].
  destruct (fetch_member w guild user) as [e|m]; simpl; [|done].
  destruct (isinstance e Discord.HTTPException); done.
Qed.

Lemma for_each_frames {A B} (f : A -> M (Store:=Store) B) (xs : list A) :
  (forall x, frames (f x)) -> frames (for_each f xs).
Proof.
  intros Hf. induction xs as [|x xs IH]; intros s; [done|].
  simpl. unfold bind.
  destruct (Hf x s) as [Hs Ht]. unfold store, trace in Hs, Ht.
  destruct (f x s) as [[[y|e] s1] t1]; simpl in *; subst s1; [|done].
  destruct (IH s) as [Hs' Ht']. unfold store, trace in Hs', Ht'.
  destruct (for_each f xs s) as [[[ys|e] s2] t2]; simpl in *; subst s2;
    unfold store, trace; simpl; rewrite ?app_nil_r, persistence_app, Ht, Ht'; done.
Qed.

(** Resolving the sides of a request touches neither the store nor the
    persistence layer. *)
Lemma resolve_sides_frames guild (sides : list (list Z)) :
  frames (for_each (fun side =>
                      for_each (fun discord_id => get_discord_member w guild discord_id) side)
            sides).
Proof.
  apply for_each_frames. intros side. apply for_each_frames.
  intros u. apply get_discord_member_frames.
Qed.

(** A resolution that succeeds has looked its member up in the cache. *)
Lemma get_discord_member_looked_up guild user s m :
  outcome (get_discord_member w guild user s) = Ret m ->
  looked_up (trace (get_discord_member w guild user s)) = [user].
Proof.
  unfold get_discord_member. run_step.
  destruct (client_guilds w !! guild) as [g|]; simpl; [|done].
  destruct (guild_members g !! user) as [m'|]; simpl; [done|].
  destruct (fetch_member w guild user) as [e|m']; simpl; [|done].
  destruct (isinstance e Discord.HTTPException); done.
Qed.

Lemma for_each_looked_up {A B} (f : A -> M (Store:=Store) B) (ids : A -> list Z)
    (xs : list A) :
  (forall x s y, outcome (f x s) = Ret y -> looked_up (trace (f x s)) = ids x) ->
  forall s ys, outcome (for_each f xs s) = Ret ys ->
               looked_up (trace (for_each f xs s)) = concat (map ids xs).
Proof.
  intros Hf. induction xs as [|x xs IH]; intros s ys; [done|].
  simpl. unfold bind.
  specialize (Hf x s). unfold outcome, trace in Hf.
  destruct (f x s) as [[[y|e] s1] t1]; simpl in *; [|done].
  specialize (IH s1). unfold outcome, trace in IH.
  destruct (for_each f xs s1) as [[[zs|e] s2] t2]; simpl in *; [|done].
  intros _. unfold trace; simpl.
  rewrite app_nil_r, looked_up_app, (Hf y eq_refl), (IH zs eq_refl). done.
Qed.

(** When every identity of a request resolves, the cache was asked for
    each of them, side by side and in the order of the request. *)
Lemma resolve_sides_looked_up guild (sides : list (list Z)) s members :
  outcome (for_each (fun side =>
                       for_each (fun discord_id => get_discord_member w guild discord_id)
                         side)
             sides s)
    = Ret members ->
  looked_up (trace (for_each (fun side =>
                                for_each (fun discord_id =>
                                            get_discord_member w guild discord_id)
                                  side)
                      sides s))
    = concat sides.
Proof.
  intros H.
  rewrite (for_each_looked_up _ (fun side => side) sides) with (ys := members);
    [by rewrite map_id | | done].
  intros side s' ys Hside.
  rewrite (for_each_looked_up _ (fun u => [u]) side) with (ys := ys); [| | done].
  - clear. induction side as [|u side IH]; simpl; [done | by rewrite IH].
  - intros u s'' m. apply get_discord_member_looked_up.
Qed.

End Resolution.

Section NewGame.
Context {Store : Type}.
Variable w : World Store.

(** The resolution loop of [new_game]. *)
Abbreviation resolve_sides game :=
  (for_each (fun side =>
               for_each (fun discord_id => get_discord_member w (guild_id game) discord_id)
                 side)
     (sides_discord_ids game)).

Abbreviation create_args game members :=
  {| discord_groups := members;
     arg_guild_id := guild_id game;
     arg_name := game_name game;
     arg_is_ranked := is_ranked game;
     arg_is_mobile := is_mobile game |}.

Abbreviation attempt_log game :=
  (Log "polybot.api" INFO
     ("games-write attempted with game info: " ++ game_name game ++ " / "
        ++ str_of_int (guild_id game) ++ " / "
        ++ repr_int_list_list (sides_discord_ids game))).

(** A successful resolution leaves the store as it found it. *)
Lemma resolve_sides_store game s members s1 t :
  resolve_sides game s = (Ret members, s1, t) -> s1 = s /\ persistence t = [].
Proof.
  intros H. destruct (resolve_sides_frames w (guild_id game) (sides_discord_ids game) s)
    as [Hs Ht].
  rewrite H in Hs, Ht. done.
Qed.

(** The run of [new_game] when the create operation raises. *)
Lemma new_game_create_raises game scopes s members t e s2 :
  scope_in "games:new" scopes = true ->
  resolve_sides game s = (Ret members, s, t) ->
  create_game w (create_args game members) s = (inl e, s2) ->
  new_game w game scopes s =
    if isinstance e ValueError then
      (Raise (HTTPError 400 (exc_str e) []), s2,
       attempt_log game
         :: (t ++ [CreateGame (create_args game members);
                   Log "polybot.api" ERROR
                     ("FAILED games:write call (creation error): " ++ exc_str e)])%list)
    else
      (Raise (Uncaught e), s2,
       attempt_log game :: (t ++ [CreateGame (create_args game members)])%list).
Proof.
  intros Hscope Hres Hcreate.
  unfold new_game. rewrite Hscope. simpl. run_step.
  rewrite Hres. unfold try_except, Game_create_game. rewrite Hcreate.
  destruct (isinstance e ValueError); simpl; done.
Qed.

(** The run of [new_game] when the create operation returns. *)
Lemma new_game_created game scopes s members t db_game warnings s2 :
  scope_in "games:new" scopes = true ->
  resolve_sides game s = (Ret members, s, t) ->
  create_game w (create_args game members) s = (inr (db_game, warnings), s2) ->
  new_game w game scopes s =
    let done_log :=
      Log "polybot.api" INFO ("Game ID " ++ str_of_int (id db_game) ++ " created successfully") in
    let body := JObj [("game_id", JInt (id db_game))] in
    if truthy (game_notes game) then
      match save w {| id := id db_game; notes := game_notes game |} s2 with
      | (None, s3) =>
          (Ret body, s3,
           attempt_log game
             :: (t ++ [CreateGame (create_args game members);
                       SaveGame (id db_game) (game_notes game); done_log])%list)
      | (Some e, s3) =>
          (Raise (Uncaught e), s3,
           attempt_log game
             :: (t ++ [CreateGame (create_args game members);
                       SaveGame (id db_game) (game_notes game)])%list)
      end
    else
      (Ret body, s2,
       attempt_log game :: (t ++ [CreateGame (create_args game members); done_log])%list).
Proof.
  intros Hscope Hres Hcreate.
  unfold new_game. rewrite Hscope. simpl. run_step.
  rewrite Hres. unfold try_except, Game_create_game. rewrite Hcreate. simpl.
  destruct (truthy (game_notes game)); simpl; [|done].
  unfold Game_save. simpl.
  destruct (save w _ s2) as [[e|] s3]; simpl; done.
Qed.

(** The run of [new_game] when an identity does not resolve: the
    exception of the resolver, and no persistence call. *)
Lemma new_game_unresolved game scopes s e s1 t :
  scope_in "games:new" scopes = true ->
  resolve_sides game s = (Raise e, s1, t) ->
  new_game w game scopes s = (Raise e, s1, attempt_log game :: t).
Proof.
  intros Hscope Hres.
  unfold new_game. rewrite Hscope. simpl. run_step.
  rewrite Hres. done.
Qed.

(** The run of [new_game] without the scope. *)
Lemma new_game_forbidden game scopes s :
  scope_in "games:new" scopes = false ->
  new_game w game scopes s =
    (Raise (HTTPError 403 "Not authorised for scope games:new." []), s,
     [attempt_log game; Log "polybot.api" WARNING "FAILED games:write call (unauthorized)"]).
Proof. intros Hscope. unfold new_game. rewrite Hscope. done. Qed.

(** C1 (as the code has it).  [new_game] checks no shape of the request
    itself.  With the scope [games:new] it first resolves every identity of
    the request, side by side and in order, without any persistence call;
    the create operation is called after that, and when it refuses the
    request with a [ValueError] the outcome is the validation error, HTTP
    400 with the reason of the [ValueError], and the create is the only
    persistence call of the run. *)
Theorem new_game_validates_after_resolution game scopes s members s1 t e s2 :
  scope_in "games:new" scopes = true ->
  resolve_sides game s = (Ret members, s1, t) ->
  create_game w (create_args game members) s = (inl e, s2) ->
  isinstance e ValueError = true ->
  looked_up t = concat (sides_discord_ids game)
  /\ persistence t = []
  /\ new_game w game scopes s =
       (Raise (HTTPError 400 (exc_str e) []), s2,
        attempt_log game
          :: (t ++ [CreateGame (create_args game members);
                    Log "polybot.api" ERROR
                      ("FAILED games:write call (creation error): " ++ exc_str e)])%list)
  /\ persistence (trace (new_game w game scopes s))
       = [CreateGame (create_args game members)].
Proof.
  intros Hscope Hres Hcreate Hval.
  destruct (resolve_sides_store _ _ _ _ _ Hres) as [-> Hpers].
  pose proof (new_game_create_raises _ _ _ _ _ _ _ Hscope Hres Hcreate) as Hrun.
  rewrite Hval in Hrun.
  repeat split; try done.
  - pose proof (resolve_sides_looked_up w (guild_id game) (sides_discord_ids game) s members)
      as Hlook.
    unfold outcome, trace in Hlook. rewrite Hres in Hlook. by apply Hlook.
  - rewrite Hrun. unfold trace. simpl.
  change (persistence (?a :: ?l)) with (persistence ([a] ++ l)).
  rewrite !persistence_app, Hpers. done.
Qed.

(** C4 (as the code has it).  A successful run of [new_game] returns the
    object with the one key [game_id], the id of the game that the create
    operation returned; the warnings of the create operation are bound to
    [_warnings] and dropped, so no string but the key occurs in the
    response. *)
Theorem new_game_returns_only_game_id game scopes s j :
  outcome (new_game w game scopes s) = Ret j ->
  exists members db_game warnings s1,
    In (CreateGame (create_args game members)) (trace (new_game w game scopes s))
    /\ create_game w (create_args game members) s = (inr (db_game, warnings), s1)
    /\ j = JObj [("game_id", JInt (id db_game))]
    /\ json_strings j = ["game_id"].
Proof.
  destruct (scope_in "games:new" scopes) eqn:Hscope;
    [|rewrite (new_game_forbidden _ _ _ Hscope); discriminate].
  destruct (resolve_sides game s) as [[[members|e] s0] t] eqn:Hres;
    [|rewrite (new_game_unresolved _ _ _ _ _ _ Hscope Hres); discriminate].
  destruct (resolve_sides_store _ _ _ _ _ Hres) as [-> _].
  destruct (create_game w (create_args game members) s) as [[e|[db_game warnings]] s1]
    eqn:Hcreate.
  { rewrite (new_game_create_raises _ _ _ _ _ _ _ Hscope Hres Hcreate).
    destruct (isinstance e ValueError); discriminate. }
  rewrite (new_game_created _ _ _ _ _ _ _ _ Hscope Hres Hcreate). simpl.
  intros Hret. exists members, db_game, warnings, s1.
  assert (Hin : forall l l' : list Call,
             In (CreateGame (create_args game members))
                (attempt_log game :: (t ++ CreateGame (create_args game members) :: l'))%list).
  { intros _ l'. right. apply in_or_app. right. by left. }
  destruct (truthy (game_notes game)).
  - destruct (save w _ s1) as [[e|] s2]; [discriminate|].
    unfold outcome, trace in *; simpl in *. inversion Hret; subst j.
    split; [apply Hin; exact []|done].
  - unfold outcome, trace in *; simpl in *. inversion Hret; subst j.
    split; [apply Hin; exact []|done].
Qed.

(** C5 (as the code has it).  When a note is supplied, the record is
    created first and the note is saved by a second call, in that order,
    and these are the only two persistence calls of the run: nothing
    follows a failed save, so nothing undoes the create, and the store is
    left as the save left it.  A save that raises ends the run with that
    exception, which the framework answers with status 500; it is not
    turned into a warning. *)
Theorem note_attached_after_create game scopes s members s0 t db_game warnings s1 :
  scope_in "games:new" scopes = true ->
  truthy (game_notes game) = true ->
  resolve_sides game s = (Ret members, s0, t) ->
  create_game w (create_args game members) s = (inr (db_game, warnings), s1) ->
  let saved := save w {| id := id db_game; notes := game_notes game |} s1 in
  persistence (trace (new_game w game scopes s))
    = [CreateGame (create_args game members); SaveGame (id db_game) (game_notes game)]
  /\ store (new_game w game scopes s) = saved.2
  /\ outcome (new_game w game scopes s)
       = match saved.1 with
         | None => Ret (JObj [("game_id", JInt (id db_game))])
         | Some e => Raise (Uncaught e)
         end
  /\ (forall e, saved.1 = Some e ->
                status (respond (outcome (new_game w game scopes s))) = 500).
Proof.
  intros Hscope Hnotes Hres Hcreate saved. subst saved.
  destruct (resolve_sides_store _ _ _ _ _ Hres) as [-> Hpers].
  rewrite (new_game_created _ _ _ _ _ _ _ _ Hscope Hres Hcreate). simpl.
  rewrite Hnotes.
  destruct (save w _ s1) as [[e|] s2]; unfold outcome, store, trace; simpl;
    change (persistence (?a :: ?l)) with (persistence ([a] ++ l));
    rewrite !persistence_app, Hpers; simpl; repeat split; try done.
Qed.

(** Without a note, no save is issued. *)
Lemma new_game_no_note game scopes s :
  truthy (game_notes game) = false ->
  saves (trace (new_game w game scopes s)) = [].
Proof.
  intros Hnotes.
  assert (Hsave : forall t : list Call, persistence t = [] -> List.filter is_save t = []).
  { induction t as [|c t IH]; [done|]. unfold persistence in *. simpl.
    destruct c; simpl; try done; auto. }
  destruct (scope_in "games:new" scopes) eqn:Hscope;
    [|by rewrite (new_game_forbidden _ _ _ Hscope)].
  destruct (resolve_sides_frames w (guild_id game) (sides_discord_ids game) s) as [Hs Ht].
  destruct (resolve_sides game s) as [[[members|e] s0] t] eqn:Hres;
    unfold store, trace in Hs, Ht; simpl in Hs, Ht; subst s0; apply Hsave in Ht.
  2: { rewrite (new_game_unresolved _ _ _ _ _ _ Hscope Hres).
       unfold saves, trace. simpl. done. }
  destruct (create_game w (create_args game members) s) as [[e|[db_game warnings]] s1]
    eqn:Hcreate.
  - rewrite (new_game_create_raises _ _ _ _ _ _ _ Hscope Hres Hcreate).
    destruct (isinstance e ValueError); unfold saves, trace; simpl;
      by rewrite List.filter_app, Ht.
  - rewrite (new_game_created _ _ _ _ _ _ _ _ Hscope Hres Hcreate). simpl.
    rewrite Hnotes. unfold saves, trace; simpl. by rewrite List.filter_app, Ht.
Qed.

End NewGame.

Section Authorization.
Context {Store : Type}.
Variable w : World Store.

(** The run of [get_scopes]. *)
Lemma get_scopes_run credentials s :
  get_scopes w credentials s =
    match authenticate w (username credentials) (password credentials) s with
    | Some app =>
        (Ret (split (scopes app)), s,
         [Authenticate (username credentials) (password credentials);
          Log "polybot.api" INFO
            ("Successful app authentication for user " ++ username credentials)])
    | None =>
        (Raise (HTTPError 401 "Incorrect app ID or token." [("WWW-Authenticate", "Basic")]),
         s,
         [Authenticate (username credentials) (password credentials);
          Log "polybot.api" WARNING
            ("Failed app authentication attempted with user " ++ username credentials)])
    end.
Proof.
  unfold get_scopes. run_step.
  destruct (authenticate w (username credentials) (password credentials) s); done.
Qed.

(** A handler that is refused its scope answers 403 and does nothing
    else than log. *)
Lemma handler_forbidden request granted s :
  scope_in (required_scope request) granted = false ->
  let handler :=
    match request with
    | GET_users discord_id => get_user w discord_id granted
    | GET_games game_id => get_game w game_id granted
    | POST_game_new body => new_game w (parse_NewGame body) granted
    end in
  outcome (handler s)
    = Raise (HTTPError 403 ("Not authorised for scope " ++ required_scope request ++ ".") [])
  /\ store (handler s) = s
  /\ persistence (trace (handler s)) = [].
Proof.
  intros Hscope. destruct request as [discord_id|game_id|body]; simpl in *.
  - unfold get_user. rewrite Hscope. done.
  - unfold get_game. rewrite Hscope. done.
  - by rewrite (new_game_forbidden _ _ _ _ Hscope).
Qed.

(** C2.  A request whose credentials the credential store does not know
    is answered 401 with the [WWW-Authenticate] challenge; a request whose
    credentials are known but whose scopes lack the one its operation
    requires is answered 403.  In both cases the store is left as it was
    and no persistence call is made: no game is created. *)
Theorem serve_rejects_unauthorized credentials request s :
  let run := serve w credentials request s in
  let found := authenticate w (username credentials) (password credentials) s in
  (found = None ->
     outcome run
       = Raise (HTTPError 401 "Incorrect app ID or token." [("WWW-Authenticate", "Basic")])
     /\ status (respond (outcome run)) = 401
     /\ headers (respond (outcome run)) = [("WWW-Authenticate", "Basic")]
     /\ store run = s
     /\ persistence (trace run) = [])
  /\ (forall app,
        found = Some app ->
        scope_in (required_scope request) (split (scopes app)) = false ->
        status (respond (outcome run)) = 403
        /\ store run = s
        /\ persistence (trace run) = []).
Proof.
  intros run found. subst run found. unfold serve, bind.
  rewrite get_scopes_run. split.
  - intros ->. done.
  - intros app -> Hscope.
    destruct (handler_forbidden request (split (scopes app)) s Hscope) as (Ho & Hs & Ht).
    simpl in Ho, Hs, Ht. unfold outcome, store, trace in *.
    destruct request; simpl in *;
      match goal with
      | |- context [let (_, _) := ?h in _] => destruct h as [[o s'] t]
      end; simpl in *; subst; simpl; done.
Qed.

End Authorization.

Section Resolver.
Context {Store : Type}.
Variable w : World Store.

(** C3 (as the code has it).  When the cache misses and the remote fetch
    fails, every failure that is a [discord.HTTPException], the missing
    member and any other HTTP failure alike, gives the one outcome 404
    "Discord member not found"; a failure of any other class leaves the
    resolver as the exception it is, which is not that outcome. *)
Theorem fetch_failure_outcomes guild user s g e :
  client_guilds w !! guild = Some g ->
  guild_members g !! user = None ->
  fetch_member w guild user = inl e ->
  get_discord_member w guild user s
    = (if isinstance e Discord.HTTPException then member_not_found user
       else Raise (Uncaught e),
       s, [GetGuild guild; GetMember guild user; FetchMember guild user])
  /\ (isinstance e Discord.HTTPException = false ->
      outcome (get_discord_member w guild user s) <> member_not_found user).
Proof.
  intros Hguild Hcache Hfetch.
  assert (Hrun : get_discord_member w guild user s
                 = (if isinstance e Discord.HTTPException then member_not_found user
                    else Raise (Uncaught e),
                    s, [GetGuild guild; GetMember guild user; FetchMember guild user])).
  { unfold get_discord_member. run_step. rewrite Hguild. simpl. rewrite Hcache. simpl.
    rewrite Hfetch. destruct (isinstance e Discord.HTTPException); done. }
  split; [done|]. intros Hclass. rewrite Hrun, Hclass. done.
Qed.

End Resolver.

Section Defaults.
Context {Store : Type}.
Variable w : World Store.

(** C10.  A field of the body that is absent takes the default of the
    model before the handler runs: [is_ranked] is false, [is_mobile] is
    true, [notes] is the empty string; and with the empty note the route
    issues no save: there is no second mutation. *)
Theorem omitted_fields_take_defaults (body : NewGameBody) :
  (body_is_ranked body = None -> is_ranked (parse_NewGame body) = false)
  /\ (body_is_mobile body = None -> is_mobile (parse_NewGame body) = true)
  /\ (body_notes body = None ->
      game_notes (parse_NewGame body) = ""
      /\ forall credentials s,
           saves (trace (serve w credentials (POST_game_new body) s)) = []).
Proof.
  split; [|split].
  - intros Hb. unfold parse_NewGame. simpl. by rewrite Hb.
  - intros Hb. unfold parse_NewGame. simpl. by rewrite Hb.
  - intros Hb.
    assert (Hnotes : game_notes (parse_NewGame body) = "").
    { unfold parse_NewGame. simpl. by rewrite Hb. }
    split; [done|]. intros credentials s. unfold serve, bind. rewrite get_scopes_run.
    destruct (authenticate w (username credentials) (password credentials) s) as [app|];
      [|done].
    pose proof (new_game_no_note w (parse_NewGame body) (split (scopes app)) s) as Hn.
    rewrite Hnotes in Hn. specialize (Hn eq_refl). unfold trace in *.
    destruct (new_game w (parse_NewGame body) (split (scopes app)) s) as [[o s'] t].
    simpl in *. done.
Qed.

End Defaults.

(** ** [split] on a string of tokens *)

Lemma append_nil_r (s : string) : s ++ "" = s.
Proof.
  induction s as [|c s IH]; [done|].
  change (String c s ++ "") with (String c (s ++ "")). by rewrite IH.
Qed.

Lemma append_assoc (a b c : string) : (a ++ b) ++ c = a ++ (b ++ c).
Proof.
  induction a as [|x a IH]; [done|].
  change (String x ((a ++ b) ++ c) = String x (a ++ b ++ c)). by rewrite IH.
Qed.

(** Scanning on through the rest of a word. *)
Lemma split_from_word (tok rest word : string) :
  no_space tok = true ->
  split_from (Some word) (tok ++ rest) = split_from (Some (word ++ tok)) rest.
Proof.
  revert word. induction tok as [|c tok IH]; intros word Htok.
  - change ("" ++ rest) with rest. by rewrite append_nil_r.
  - simpl in Htok. apply andb_prop in Htok as [Hc Htok].
    apply negb_true_iff in Hc.
    change (String c tok ++ rest) with (String c (tok ++ rest)).
    cbn [split_from]. rewrite Hc, (IH _ Htok), append_assoc. done.
Qed.

(** Scanning a whole token from between two words. *)
Lemma split_from_token (tok rest : string) :
  token tok = true ->
  split_from None (tok ++ rest) = split_from (Some tok) rest.
Proof.
  unfold token. destruct tok as [|c tok]; [done|]. simpl.
  intros Htok. apply andb_prop in Htok as [Hc Htok].
  apply negb_true_iff in Hc.
  change (String c tok ++ rest) with (String c (tok ++ rest)).
  cbn [split_from]. rewrite Hc.
  by rewrite (split_from_word tok rest (String c "") Htok).
Qed.

(** Tokens joined by one space are split into themselves: same order,
    same repetitions. *)
Lemma split_join (ts : list string) :
  Forall (fun tok => token tok = true) ts -> split (join " " ts) = ts.
Proof.
  unfold split. induction ts as [|tok ts IH]; intros Hts; [done|].
  apply Forall_cons in Hts as [Htok Hts]. specialize (IH Hts).
  destruct ts as [|tok' ts].
  - simpl. rewrite <- (append_nil_r tok) at 1. by rewrite split_from_token.
  - change (join " " (tok :: tok' :: ts)) with (tok ++ " " ++ join " " (tok' :: ts)).
    rewrite split_from_token by done.
    change (split_from (Some tok) (" " ++ join " " (tok' :: ts)))
      with (tok :: split_from None (join " " (tok' :: ts))).
    by rewrite IH.
Qed.

Lemma scope_in_In (x : string) (l : list string) : scope_in x l = true <-> In x l.
Proof.
  unfold scope_in. rewrite existsb_exists. split.
  - intros (y & Hy & Heq). apply String.eqb_eq in Heq. by subst.
  - intros Hx. exists x. split; [done | apply String.eqb_refl].
Qed.

Section Scopes.
Context {Store : Type}.

(** C9 (as the code has it).  For credentials that authenticate,
    [get_scopes] returns the list of the tokens of the stored string, in
    the stored order and with every repetition kept.  Two stored strings
    with the same tokens, in any order and with any repetition, give lists
    with the same members, so a scope is found in the one exactly when it
    is found in the other. *)
Theorem get_scopes_same_members (w1 w2 : World Store) c1 c2 s1 s2 app1 app2 ts1 ts2 :
  authenticate w1 (username c1) (password c1) s1 = Some app1 ->
  authenticate w2 (username c2) (password c2) s2 = Some app2 ->
  Forall (fun tok => token tok = true) ts1 ->
  Forall (fun tok => token tok = true) ts2 ->
  scopes app1 = join " " ts1 ->
  scopes app2 = join " " ts2 ->
  (forall x, In x ts1 <-> In x ts2) ->
  outcome (get_scopes w1 c1 s1) = Ret ts1
  /\ outcome (get_scopes w2 c2 s2) = Ret ts2
  /\ forall x, scope_in x ts1 = scope_in x ts2.
Proof.
  intros Hauth1 Hauth2 Hts1 Hts2 Hsc1 Hsc2 Hsame.
  rewrite !get_scopes_run, Hauth1, Hauth2, Hsc1, Hsc2, !split_join by done.
  repeat split; try done.
  intros x. apply eq_true_iff_eq. rewrite !scope_in_In. apply Hsame.
Qed.

End Scopes.

End ApiProofs.

(* ===================================================================== *)
(** * Properties of the command surface *)
(* ===================================================================== *)

Module BotProofs.
Import Py Discord Eff Spec Bot.
Local Open Scope eff_scope.

Section Commands.
Context {Store : Type}.
Variable settings : Settings.

(** C7.  A message from a guild that the table [settings.config] does
    not hold is logged as an error, and the prefixes returned are the two
    mention triggers followed by the default prefix of the process;
    nothing is raised and the store is untouched. *)
Theorem get_prefix_falls_back bot message guild (s : Store) :
  message_guild message = Some guild ->
  config settings !! guild_id guild = None ->
  get_prefix settings bot message s
    = (Ret (when_mentioned bot message ++ [get_setting settings "command_prefix"])%list,
       s,
       [Log "root" ERROR
          ("Message received not from allowed guild. ID " ++ str_of_int (guild_id guild))]).
Proof.
  intros Hguild Hconfig. unfold get_prefix. rewrite Hguild, Hconfig. done.
Qed.

(** A message with no guild at all takes the same branch, and there the
    log line reads the id of the guild that is not there. *)
Lemma get_prefix_direct_message bot message (s : Store) :
  message_guild message = None ->
  get_prefix settings bot message s = (Raise none_has_no_id, s, []).
Proof. intros Hguild. unfold get_prefix. by rewrite Hguild. Qed.

(** C8.  A command that comes with no guild is denied for that reason,
    whoever its author is: the first check says no, the rank check is not
    run, and the callback of the command is not called. *)
Theorem direct_message_is_denied ctx command (s : Store) :
  ctx_guild ctx = None ->
  gatekeeper settings ctx s = (Ret denied_no_guild, s, [])
  /\ List.filter is_dispatch (trace (invoke settings ctx command s)) = []
  /\ List.filter is_send (trace (invoke settings ctx command s)) = [].
Proof.
  intros Hguild.
  assert (Hgate : gatekeeper settings ctx s = (Ret denied_no_guild, s, [])).
  { unfold gatekeeper, globally_block_dms, bind, ret. by rewrite Hguild. }
  split; [done|].
  unfold invoke, bind. rewrite Hgate. unfold on_command_error, trace.
  destruct (hasattr_on_error (ctx_command ctx)); done.
Qed.

(** C6 (as the code has it).  For an exception outside the ignored
    classes, raised by a command with no error handler of its own, the
    handler logs at critical severity, prints, and sends one reply to the
    channel of the command: "Unhandled error: " followed by the text of
    the exception. *)
Theorem unhandled_error_reply ctx exc (s : Store) :
  hasattr_on_error (ctx_command ctx) = false ->
  isinstance_any exc ignored = false ->
  on_command_error ctx exc s
    = (Ret tt, s,
       [Log "root" CRITICAL
          ("Ignoring exception in command " ++ str_command (ctx_command ctx) ++ ": "
             ++ exc_str exc ++ " " ++ String.concat "" (exc_traceback exc));
        Stdout ("Exception raised. " ++ exc_str exc ++ newline
                 ++ String.concat "" (exc_traceback exc));
        Send (ctx_channel ctx) ("Unhandled error: " ++ exc_str exc)]).
Proof.
  intros Hlocal Hclass. unfold on_command_error. rewrite Hlocal, Hclass. done.
Qed.

End Commands.

End BotProofs.

(* ===================================================================== *)
(** * The properties at work in the small world *)
(* ===================================================================== *)

Module Runs.
Import Py Discord Eff Api Spec Demo.

(** ** Requests that break a shape precondition *)

(** A request of one side breaks the first precondition; its one member
    is fetched from the remote side and the create operation is called all
    the same, before the validation error comes back. *)
Lemma one_side_is_fetched_and_submitted :
  ~ rejected_before_any_call world one_side ["games:new"] [].
Proof.
  intros H. destruct (H eq_refl) as (_ & Hfetch & _).
  vm_compute in Hfetch. discriminate.
Qed.

Lemma new_game_validates_after_resolution_witness :
  (scope_in "games:new" ["games:new"] = true
   /\ for_each (fun side =>
                  for_each (fun discord_id =>
                              get_discord_member world (guild_id one_side) discord_id)
                    side)
        (sides_discord_ids one_side) ([] : Games)
      = (Ret one_side_members, [], one_side_calls)
   /\ create_game world one_side_args [] = (inl too_few_sides, [])
   /\ isinstance too_few_sides ValueError = true)
  /\ outcome (new_game world one_side ["games:new"] [])
     = Raise (HTTPError 400 "Game must have at least 2 sides." [])
  /\ persistence (trace (new_game world one_side ["games:new"] []))
     = [CreateGame one_side_args].
Proof.
  assert (H1 : scope_in "games:new" ["games:new"] = true) by reflexivity.
  assert (H2 : for_each (fun side =>
                  for_each (fun discord_id =>
                              get_discord_member world (guild_id one_side) discord_id)
                    side)
        (sides_discord_ids one_side) ([] : Games)
      = (Ret one_side_members, [], one_side_calls)) by (vm_compute; reflexivity).
  assert (H3 : create_game world one_side_args [] = (inl too_few_sides, []))
    by reflexivity.
  assert (H4 : isinstance too_few_sides ValueError = true) by reflexivity.
  split; [done|].
  destruct (ApiProofs.new_game_validates_after_resolution
              world one_side ["games:new"] [] one_side_members [] one_side_calls
              too_few_sides [] H1 H2 H3 H4) as (_ & _ & Hrun & Hpers).
  split; [by rewrite Hrun | exact Hpers].
Defined.

(** ** Credentials and scopes *)

Lemma serve_rejects_unauthorized_witness :
  status (respond (outcome (serve world stranger (POST_game_new bare_body) []))) = 401
  /\ status (respond (outcome (serve world app2 (POST_game_new bare_body) []))) = 403
  /\ store (serve world app2 (POST_game_new bare_body) []) = [].
Proof.
  destruct (ApiProofs.serve_rejects_unauthorized world stranger (POST_game_new bare_body) [])
    as [H401 _].
  destruct (ApiProofs.serve_rejects_unauthorized world app2 (POST_game_new bare_body) [])
    as [_ H403].
  destruct (H401 eq_refl) as (_ & Hstatus & _).
  destruct (H403 (mkApp "games:read") eq_refl eq_refl) as (Hstatus' & Hstore & _).
  done.
Defined.

(** ** The resolver *)

(** The fetch of member 9 fails on the server side, which is not the
    member missing; the outcome is the one of a missing member. *)
Lemma server_error_reads_as_not_found :
  ~ transient_is_distinct world 1 9 [].
Proof.
  intros H. apply (H server_error); reflexivity.
Qed.

Lemma fetch_failure_outcomes_witness :
  (client_guilds world !! 1 = Some guild1
   /\ guild_members guild1 !! 9 = None
   /\ fetch_member world 1 9 = inl server_error)
  /\ outcome (get_discord_member world 1 9 ([] : Games)) = member_not_found 9
  /\ outcome (get_discord_member world 1 8 ([] : Games)) = member_not_found 8
  /\ outcome (get_discord_member world 1 10 ([] : Games)) = Raise (Uncaught connection_lost).
Proof.
  assert (H1 : client_guilds world !! 1 = Some guild1) by (vm_compute; reflexivity).
  assert (H2 : forall n, n = 8 \/ n = 9 \/ n = 10 -> guild_members guild1 !! n = None).
  { intros n [-> | [-> | ->]]; vm_compute; reflexivity. }
  split; [split; [exact H1 | split; [apply H2; auto | reflexivity]]|].
  destruct (ApiProofs.fetch_failure_outcomes world 1 9 [] guild1 server_error
              H1 (H2 9 ltac:(auto)) eq_refl) as [H9 _].
  destruct (ApiProofs.fetch_failure_outcomes world 1 8 [] guild1 unknown_member
              H1 (H2 8 ltac:(auto)) eq_refl) as [H8 _].
  destruct (ApiProofs.fetch_failure_outcomes world 1 10 [] guild1 connection_lost
              H1 (H2 10 ltac:(auto)) eq_refl) as [H10 _].
  rewrite H9, H8, H10. done.
Defined.

(** ** Warnings and notes *)

(** The create operation warns of the uneven sides; the response holds the
    id of the game and no warning. *)
Lemma side_imbalance_is_dropped :
  ~ warnings_are_returned world uneven ["games:new"] [].
Proof.
  intros H.
  specialize (H (JObj [("game_id", JInt 1)]) eq_refl
                uneven_args (mkGame 1 "") ["side imbalance"] [mkGame 1 ""]).
  assert (Hin : In (CreateGame uneven_args) (trace (new_game world uneven ["games:new"] []))).
  { vm_compute. repeat (first [left; reflexivity | right]). }
  specialize (H Hin eq_refl).
  apply Forall_cons in H as [H _]. vm_compute in H.
  destruct H as [H|[]]. discriminate.
Qed.

Lemma new_game_returns_only_game_id_witness :
  outcome (new_game world uneven ["games:new"] []) = Ret (JObj [("game_id", JInt 1)])
  /\ exists members db_game warnings s1,
       create_game world
         {| discord_groups := members; arg_guild_id := 1; arg_name := "Uneven";
            arg_is_ranked := true; arg_is_mobile := true |} []
       = (inr (db_game, warnings), s1)
       /\ JObj [("game_id", JInt 1)] = JObj [("game_id", JInt (id db_game))].
Proof.
  assert (H : outcome (new_game world uneven ["games:new"] [])
              = Ret (JObj [("game_id", JInt 1)])) by (vm_compute; reflexivity).
  split; [exact H|].
  destruct (ApiProofs.new_game_returns_only_game_id world uneven ["games:new"] [] _ H)
    as (members & db_game & warnings & s1 & _ & Hcreate & Hj & _).
  exists members, db_game, warnings, s1. done.
Defined.

(** The save of the note fails; the caller gets the exception, not a
    value with a warning. *)
Lemma failed_note_is_an_error :
  ~ note_failure_is_a_warning world_save_fails with_note ["games:new"] [].
Proof.
  intros H.
  assert (Hin : In (CreateGame with_note_args)
                   (trace (new_game world_save_fails with_note ["games:new"] []))).
  { vm_compute. repeat (first [left; reflexivity | right]). }
  destruct (H with_note_args (mkGame 1 "") [] [mkGame 1 ""] database_locked [mkGame 1 ""]
              eq_refl Hin eq_refl eq_refl) as [j Hj].
  vm_compute in Hj. discriminate.
Qed.

Lemma note_attached_after_create_witness :
  (scope_in "games:new" ["games:new"] = true
   /\ truthy (game_notes with_note) = true
   /\ create_game world_save_fails with_note_args [] = (inr (mkGame 1 "", []), [mkGame 1 ""]))
  /\ persistence (trace (new_game world_save_fails with_note ["games:new"] []))
     = [CreateGame with_note_args; SaveGame 1 "first to 3 cities"]
  /\ store (new_game world_save_fails with_note ["games:new"] []) = [mkGame 1 ""]
  /\ status (respond (outcome (new_game world_save_fails with_note ["games:new"] []))) = 500.
Proof.
  assert (Hres : for_each (fun side =>
                  for_each (fun discord_id =>
                              get_discord_member world_save_fails (guild_id with_note)
                                discord_id)
                    side)
        (sides_discord_ids with_note) ([] : Games)
      = (Ret with_note_members, [], with_note_calls)) by (vm_compute; reflexivity).
  split; [done|].
  destruct (ApiProofs.note_attached_after_create
              world_save_fails with_note ["games:new"] [] with_note_members []
              with_note_calls (mkGame 1 "") [] [mkGame 1 ""]
              eq_refl eq_refl Hres eq_refl) as (Hpers & Hstore & _ & Hstatus).
  split; [exact Hpers|]. split; [exact Hstore|].
  exact (Hstatus database_locked eq_refl).
Defined.

(** ** Scopes *)

(** The applications 1 and 3 hold the same two tokens in the two orders;
    the lists returned for them differ. *)
Lemma token_order_shows :
  ~ same_scope_set world world app1 app3 [].
Proof.
  intros H.
  specialize (H (mkApp "games:read games:new") (mkApp "games:new games:read")
                eq_refl eq_refl).
  assert (Hsame : forall x, In x (split "games:read games:new")
                            <-> In x (split "games:new games:read")).
  { intros x. vm_compute. tauto. }
  specialize (H Hsame). vm_compute in H. discriminate.
Qed.

(** A token stored twice is returned twice. *)
Lemma repeated_token_is_kept :
  split "games:read games:read" = ["games:read"; "games:read"].
Proof. reflexivity. Qed.

Lemma get_scopes_same_members_witness :
  (authenticate world "app1" "secret1" [] = Some (mkApp "games:read games:new")
   /\ authenticate world "app3" "secret3" [] = Some (mkApp "games:new games:read"))
  /\ outcome (get_scopes world app1 []) = Ret ["games:read"; "games:new"]
  /\ outcome (get_scopes world app3 []) = Ret ["games:new"; "games:read"]
  /\ forall x, scope_in x ["games:read"; "games:new"] = scope_in x ["games:new"; "games:read"].
Proof.
  split; [done|].
  apply (ApiProofs.get_scopes_same_members world world app1 app3 [] []
           (mkApp "games:read games:new") (mkApp "games:new games:read")
           ["games:read"; "games:new"] ["games:new"; "games:read"]);
    try reflexivity.
  - repeat constructor.
  - repeat constructor.
  - intros x. simpl. tauto.
Defined.

(** ** Defaults *)

Lemma omitted_fields_take_defaults_witness :
  (body_is_ranked bare_body = None /\ body_is_mobile bare_body = None
   /\ body_notes bare_body = None)
  /\ parse_NewGame bare_body = mkNewGame "Duel" 1 false true "" [[5]; [6]]
  /\ saves (trace (serve world app1 (POST_game_new bare_body) [])) = [].
Proof.
  split; [done|]. split; [reflexivity|].
  destruct (ApiProofs.omitted_fields_take_defaults world bare_body) as (_ & _ & Hnotes).
  destruct (Hnotes eq_refl) as [_ Hsaves]. apply Hsaves.
Defined.

(** ** The command surface *)

Lemma get_prefix_falls_back_witness :
  (Bot.message_guild from_guild2 = Some guild2
   /\ Bot.config settings !! Discord.guild_id guild2 = None)
  /\ Bot.get_prefix settings polybot from_guild2 ([] : Games)
     = (Ret ["<@42> "; "<@!42> "; "!"], [],
        [Log "root" ERROR "Message received not from allowed guild. ID 2"]).
Proof.
  assert (H : Bot.config settings !! Discord.guild_id guild2 = None)
    by (vm_compute; reflexivity).
  split; [done|].
  exact (BotProofs.get_prefix_falls_back settings polybot from_guild2 guild2 [] eq_refl H).
Defined.

Lemma direct_message_is_denied_witness :
  Bot.ctx_guild direct_message = None
  /\ Bot.gatekeeper settings direct_message ([] : Games) = (Ret Bot.denied_no_guild, [], [])
  /\ List.filter Bot.is_dispatch
       (trace (Bot.invoke settings direct_message (Bot.mkCommand "newgame" false)
                 ([] : Games))) = [].
Proof.
  split; [done|].
  destruct (BotProofs.direct_message_is_denied settings direct_message
              (Bot.mkCommand "newgame" false) ([] : Games) eq_refl) as (Hgate & Hdispatch & _).
  done.
Defined.

(** The text of the exception is in the reply. *)
Lemma reply_carries_the_error_text :
  ~ reply_is_generic in_guild1 command_failed ([] : Games).
Proof.
  intros H. destruct (H eq_refl) as (text & Hsend & Htext).
  vm_compute in Hsend. injection Hsend as <-.
  vm_compute in Htext. discriminate.
Qed.

Lemma unhandled_error_reply_witness :
  (Bot.hasattr_on_error (Bot.ctx_command in_guild1) = false
   /\ isinstance_any command_failed Bot.ignored = false)
  /\ List.filter Bot.is_send (trace (Bot.on_command_error in_guild1 command_failed
                                       ([] : Games)))
     = [Send 78 ("Unhandled error: " ++ exc_str command_failed)].
Proof.
  split; [done|].
  by rewrite (BotProofs.unhandled_error_reply in_guild1 command_failed ([] : Games)
                eq_refl eq_refl).
Defined.

End Runs.

(* ===================================================================== *)
(** * More on the HTTP surface *)
(* ===================================================================== *)

Module ApiMore.
Import Py Discord Eff Api Spec Obs.
Local Open Scope eff_scope.

Section Loops.
Context {Store : Type}.

(** What holds of each turn of a loop that succeeds holds of its result,
    position by position. *)
Lemma for_each_Forall2 {A B} (f : A -> M (Store:=Store) B) (R : A -> B -> Prop)
    (xs : list A) :
  (forall x s y, outcome (f x s) = Ret y -> R x y) ->
  forall s ys, outcome (for_each f xs s) = Ret ys -> Forall2 R xs ys.
Proof.
  intros Hf. induction xs as [|x xs IH]; intros s ys; simpl.
  - unfold outcome, ret. simpl. intros [= <-]. constructor.
  - unfold bind. specialize (Hf x s). unfold outcome in *.
    destruct (f x s) as [[[y|e] s1] t1]; simpl in *; [|done].
    specialize (IH s1).
    destruct (for_each f xs s1) as [[[zs|e] s2] t2]; simpl in *; [|done].
    intros [= <-]. constructor; [by apply Hf | by apply IH].
Qed.

(** Calls of a kind that no turn makes are not made by the loop. *)
Lemma for_each_filter_nil {A B} (P : Call -> bool) (f : A -> M (Store:=Store) B)
    (xs : list A) :
  (forall x, In x xs -> forall s, List.filter P (trace (f x s)) = []) ->
  forall s, List.filter P (trace (for_each f xs s)) = [].
Proof.
  induction xs as [|x xs IH]; intros Hf s; [done|].
  simpl. unfold bind.
  pose proof (Hf x (or_introl eq_refl) s) as Hx. unfold trace in *.
  destruct (f x s) as [[[y|e] s1] t1]; simpl in *; [|done].
  assert (Hrest : forall s', List.filter P (for_each f xs s').2 = []).
  { apply IH. intros x' Hin. apply Hf. by right. }
  specialize (Hrest s1).
  destruct (for_each f xs s1) as [[[zs|e] s2] t2]; simpl in *;
    rewrite ?app_nil_r, List.filter_app, Hx, Hrest; done.
Qed.


End Loops.

Section Requests.
Context {Store : Type}.
Variable w : World Store.

Abbreviation resolve_sides game :=
  (for_each (fun side =>
               for_each (fun discord_id => get_discord_member w (guild_id game) discord_id)
                 side)
     (sides_discord_ids game)).

Abbreviation create_args game members :=
  {| discord_groups := members;
     arg_guild_id := guild_id game;
     arg_name := game_name game;
     arg_is_ranked := is_ranked game;
     arg_is_mobile := is_mobile game |}.

Abbreviation attempt_log game :=
  (Log "polybot.api" INFO
     ("games-write attempted with game info: " ++ game_name game ++ " / "
        ++ str_of_int (guild_id game) ++ " / "
        ++ repr_int_list_list (sides_discord_ids game))).

(** ** One identity *)

Lemma get_discord_member_resolved guild user s m :
  outcome (get_discord_member w guild user s) = Ret m -> resolved_by w guild user m.
Proof.
  unfold get_discord_member, resolved_by, outcome, bind, call, ret, raise. simpl.
  destruct (client_guilds w !! guild) as [g|] eqn:Hg; simpl; [|done].
  destruct (guild_members g !! user) as [m'|] eqn:Hm; simpl.
  - intros [= <-]. exists g. auto.
  - destruct (fetch_member w guild user) as [e|m'] eqn:Hf; simpl.
    + destruct (isinstance e Discord.HTTPException); done.
    + intros [= <-]. exists g. auto.
Qed.


(** A member of the cache is resolved without a remote fetch. *)
Lemma get_discord_member_cached guild user g s :
  client_guilds w !! guild = Some g ->
  is_Some (guild_members g !! user) ->
  List.filter is_fetch (trace (get_discord_member w guild user s)) = [].
Proof.
  intros Hg [m Hm]. unfold get_discord_member, trace, bind, call, ret. simpl.
  rewrite Hg. simpl. rewrite Hm. done.
Qed.

(** ** The resolution loop *)


(** A request that names no identity is resolved without a call. *)
Lemma resolve_sides_no_identity game s :
  concat (sides_discord_ids game) = [] ->
  resolve_sides game s = (Ret (map (fun _ => []) (sides_discord_ids game)), s, []).
Proof.
  generalize (sides_discord_ids game) as sides.
  induction sides as [|side sides IH]; intros Hnone; [done|].
  simpl in Hnone. apply app_eq_nil in Hnone as [-> Hnone].
  simpl. unfold bind. simpl. rewrite (IH Hnone). done.
Qed.

(** With the guild out of the cache, the first identity of the request
    ends the resolution, on the lookup of the guild. *)
Lemma resolve_sides_unknown_guild game s :
  client_guilds w !! guild_id game = None ->
  concat (sides_discord_ids game) <> [] ->
  resolve_sides game s =
    (Raise (HTTPError 404
              ("Discord guild not found by ID " ++ str_of_int (guild_id game) ++ ".") []),
     s, [GetGuild (guild_id game)]).
Proof.
  intros Hguild. generalize (sides_discord_ids game) as sides.
  induction sides as [|side sides IH]; intros Hsome; [done|].
  destruct side as [|u side].
  - simpl in Hsome. simpl. unfold bind. simpl. rewrite (IH Hsome). done.
  - simpl. unfold bind. unfold get_discord_member at 1. unfold bind, call, raise. simpl.
    rewrite Hguild. done.
Qed.

(** ** The runs of [new_game] *)

(** With the scope, a run either ends in the resolution, or resolves all,
    calls the create operation once and goes on with calls of other
    kinds. *)
Lemma new_game_paths game scopes s :
  scope_in "games:new" scopes = true ->
  (exists e t,
      resolve_sides game s = (Raise e, s, t)
      /\ new_game w game scopes s = (Raise e, s, attempt_log game :: t))
  \/ (exists members t rest,
         resolve_sides game s = (Ret members, s, t)
         /\ trace (new_game w game scopes s)
            = attempt_log game :: (t ++ CreateGame (create_args game members) :: rest)%list
         /\ after_create rest).
Proof.
  intros Hscope.
  destruct (ApiProofs.resolve_sides_frames w (guild_id game) (sides_discord_ids game) s)
    as [Hs _].
  destruct (resolve_sides game s) as [[[members|e] s0] t] eqn:Hres;
    unfold store in Hs; simpl in Hs; subst s0.
  2: { left. exists e, t. split; [done|].
       by apply ApiProofs.new_game_unresolved. }
  right. exists members, t.
  destruct (create_game w (create_args game members) s) as [[e|[db_game warnings]] s1]
    eqn:Hcreate.
  - rewrite (ApiProofs.new_game_create_raises w _ _ _ _ _ _ _ Hscope Hres Hcreate).
    destruct (isinstance e ValueError); eexists; (split; [done|]);
      (split; [reflexivity|]); unfold after_create; repeat constructor; done.
  - rewrite (ApiProofs.new_game_created w _ _ _ _ _ _ _ _ Hscope Hres Hcreate). simpl.
    destruct (truthy (game_notes game)).
    + destruct (save w _ s1) as [[e|] s2]; eexists; (split; [done|]);
        (split; [reflexivity|]); unfold after_create; repeat constructor; done.
    + eexists; (split; [done|]); (split; [reflexivity|]);
        unfold after_create; repeat constructor; done.
Qed.


Lemma after_create_fetches rest : after_create rest -> fetches rest = [].
Proof.
  induction 1 as [|c rest [Hc _] _ IH]; [done|].
  unfold fetches in *. destruct c; simpl in *; done.
Qed.

Lemma after_create_client rest : after_create rest -> client_calls rest = [].
Proof.
  induction 1 as [|c rest [Hc _] _ IH]; [done|].
  unfold client_calls in *. simpl. by rewrite Hc.
Qed.

Lemma no_persistence_no_create (t : list Call) a :
  persistence t = [] -> ~ In (CreateGame a) t.
Proof.
  induction t as [|c t IH]; [by intros _ []|].
  unfold persistence in *. simpl. intros Hp [->|Hin]; [done|].
  destruct (is_persistence c); [done | by apply IH].
Qed.

(** X1.  All or nothing: when an identity of the request does not
    resolve, [new_game] ends with the exception of the resolver, the store
    is the one it was given and no persistence call has been made. *)
Theorem new_game_all_or_nothing game scopes s e :
  scope_in "games:new" scopes = true ->
  outcome (resolve_sides game s) = Raise e ->
  outcome (new_game w game scopes s) = Raise e
  /\ store (new_game w game scopes s) = s
  /\ persistence (trace (new_game w game scopes s)) = [].
Proof.
  intros Hscope Hfail.
  destruct (ApiProofs.resolve_sides_frames w (guild_id game) (sides_discord_ids game) s)
    as [Hs Ht].
  destruct (resolve_sides game s) as [[[members|e'] s0] t] eqn:Hres;
    unfold outcome, store, trace in *; simpl in *; [done|].
  injection Hfail as ->. subst s0.
  rewrite (ApiProofs.new_game_unresolved w _ _ _ _ _ _ Hscope Hres). simpl.
  repeat split. exact Ht.
Qed.


(** X3.  What reaches the create operation is the request: the guild,
    the name and the two flags of the request, and for each side the
    members that its ids stand for, position by position, each from the
    cache when the cache has it and from the remote fetch otherwise. *)
Theorem created_groups_follow_request game scopes s args :
  In (CreateGame args) (trace (new_game w game scopes s)) ->
  Forall2 (Forall2 (resolved_by w (guild_id game)))
    (sides_discord_ids game) (discord_groups args)
  /\ arg_guild_id args = guild_id game
  /\ arg_name args = game_name game
  /\ arg_is_ranked args = is_ranked game
  /\ arg_is_mobile args = is_mobile game.
Proof.
  destruct (scope_in "games:new" scopes) eqn:Hscope.
  2: { rewrite (ApiProofs.new_game_forbidden w _ _ _ Hscope). simpl.
       intros [|[|[]]]; done. }
  destruct (ApiProofs.resolve_sides_frames w (guild_id game) (sides_discord_ids game) s)
    as [_ Hpers].
  destruct (new_game_paths game scopes s Hscope)
    as [(e & t & Hres & ->) | (members & t & rest & Hres & -> & Hrest)];
    rewrite Hres in Hpers; unfold trace in *; simpl in Hpers |- *.
  - intros [|Hin]; [done|]. by apply no_persistence_no_create in Hin.
  - intros [|Hin]; [done|]. apply in_app_or in Hin as [Hin|[Hin|Hin]].
    + by apply no_persistence_no_create in Hin.
    + injection Hin as <-. simpl. repeat split.
      pose proof (for_each_Forall2
                    (fun side =>
                       for_each (fun discord_id =>
                                   get_discord_member w (guild_id game) discord_id) side)
                    (Forall2 (resolved_by w (guild_id game)))
                    (sides_discord_ids game)) as H.
      apply H with (s := s); [|by unfold outcome; rewrite Hres].
      intros side s' ms. apply for_each_Forall2.
      intros u s'' m. apply get_discord_member_resolved.
    + unfold after_create in Hrest. rewrite Forall_forall in Hrest.
      apply list_elem_of_In in Hin.
      destruct (Hrest _ Hin) as [_ Hne]. by destruct (Hne args).
Qed.

(** X4.  A request whose sides name no identity at all (no side, or empty
    sides only) never reaches the Discord client, so not even its guild is
    looked up: the create operation is called at once, with one empty
    group for each side. *)
Theorem new_game_no_identity game scopes s :
  scope_in "games:new" scopes = true ->
  concat (sides_discord_ids game) = [] ->
  client_calls (trace (new_game w game scopes s)) = []
  /\ exists rest,
       trace (new_game w game scopes s)
       = attempt_log game
           :: CreateGame (create_args game (map (fun _ => []) (sides_discord_ids game)))
           :: rest.
Proof.
  intros Hscope Hnone.
  pose proof (resolve_sides_no_identity game s Hnone) as Hres.
  destruct (new_game_paths game scopes s Hscope)
    as [(e & t & Hres' & _) | (members & t & rest & Hres' & Htrace & Hrest)];
    rewrite Hres in Hres'; [done|].
  injection Hres' as <- <-. rewrite Htrace. split; [|by exists rest].
  unfold client_calls. simpl. apply (after_create_client _ Hrest).
Qed.

(** X5.  A request that names an identity in a guild the client does not
    hold is answered 404 "Discord guild not found" on the first lookup of
    the guild: no member is looked up or fetched, and nothing reaches the
    persistence layer. *)
Theorem new_game_unknown_guild game scopes s :
  scope_in "games:new" scopes = true ->
  client_guilds w !! guild_id game = None ->
  concat (sides_discord_ids game) <> [] ->
  new_game w game scopes s =
    (Raise (HTTPError 404
              ("Discord guild not found by ID " ++ str_of_int (guild_id game) ++ ".") []),
     s, [attempt_log game; GetGuild (guild_id game)]).
Proof.
  intros Hscope Hguild Hsome.
  apply (ApiProofs.new_game_unresolved w _ _ _ _ _ _ Hscope).
  by apply resolve_sides_unknown_guild.
Qed.

(** X6.  Only a [ValueError] of the create operation becomes a 400.  Any
    other exception it raises leaves [new_game] as it is, which the
    framework answers with status 500; the note is not saved and the
    failure is not logged by the handler. *)
Theorem new_game_create_crash game scopes s members s1 t e s2 :
  scope_in "games:new" scopes = true ->
  resolve_sides game s = (Ret members, s1, t) ->
  create_game w (create_args game members) s = (inl e, s2) ->
  isinstance e ValueError = false ->
  new_game w game scopes s
    = (Raise (Uncaught e), s2,
       attempt_log game :: (t ++ [CreateGame (create_args game members)])%list)
  /\ status (respond (outcome (new_game w game scopes s))) = 500
  /\ saves (trace (new_game w game scopes s)) = [].
Proof.
  intros Hscope Hres Hcreate Hclass.
  destruct (ApiProofs.resolve_sides_store w _ _ _ _ _ Hres) as [-> Hpers].
  pose proof (ApiProofs.new_game_create_raises w _ _ _ _ _ _ _ Hscope Hres Hcreate) as Hrun.
  rewrite Hclass in Hrun. rewrite Hrun. repeat split.
  unfold saves, trace. simpl. rewrite List.filter_app. simpl. rewrite app_nil_r.
  clear -Hpers. induction t as [|c t IH]; [done|].
  unfold persistence in Hpers. simpl in *.
  destruct c; simpl in *; try done; by apply IH.
Qed.

(** X7.  When every identity of the request is in the cache of its guild,
    [new_game] makes no remote fetch. *)
Theorem new_game_cached_members game scopes s g :
  client_guilds w !! guild_id game = Some g ->
  (forall u, In u (concat (sides_discord_ids game)) -> is_Some (guild_members g !! u)) ->
  fetches (trace (new_game w game scopes s)) = [].
Proof.
  intros Hguild Hcached.
  destruct (scope_in "games:new" scopes) eqn:Hscope;
    [|by rewrite (ApiProofs.new_game_forbidden w _ _ _ Hscope)].
  assert (Hquiet : fetches (trace (resolve_sides game s)) = []).
  { unfold fetches. apply for_each_filter_nil. intros side Hside s'.
    apply for_each_filter_nil. intros u Hu s''.
    apply (get_discord_member_cached _ _ g); [done|].
    apply Hcached. apply in_concat. by exists side. }
  destruct (new_game_paths game scopes s Hscope)
    as [(e & t & Hres & ->) | (members & t & rest & Hres & -> & Hrest)];
    rewrite Hres in Hquiet; unfold fetches, trace in *; simpl in *; [done|].
  rewrite List.filter_app, Hquiet. simpl. apply (after_create_fetches _ Hrest).
Qed.

End Requests.

Section Reads.
Context {Store : Type}.
Variable w : World Store.

(** X8.  The two GET routes only read: whatever the credentials and the
    id, the store is left as it was, and no call goes to the persistence
    layer to write or to the Discord client. *)
Theorem get_routes_only_read credentials request s :
  (forall body, request <> POST_game_new body) ->
  store (serve w credentials request s) = s
  /\ persistence (trace (serve w credentials request s)) = []
  /\ client_calls (trace (serve w credentials request s)) = [].
Proof.
  intros Hget. unfold serve, bind. rewrite ApiProofs.get_scopes_run.
  destruct (authenticate w (username credentials) (password credentials) s) as [app|];
    [|done].
  destruct request as [discord_id|game_id|body]; [| |by destruct (Hget body)].
  - unfold get_user, bind, call, api_log, raise, ret. simpl.
    destruct (scope_in "users:read" (split (scopes app))); simpl; [|done].
    destruct (user_row w discord_id s); done.
  - unfold get_game, bind, call, api_log, raise, ret. simpl.
    destruct (scope_in "games:read" (split (scopes app))); simpl; [|done].
    destruct (game_row w game_id s); done.
Qed.

(** X9.  [GET /users/{id}] with the scope [users:read]: the row of the
    user as JSON, with its games exactly when the application also holds
    [games:read]; and 404 "User not found." when there is no row. *)
Theorem get_user_answer credentials discord_id s app :
  authenticate w (username credentials) (password credentials) s = Some app ->
  scope_in "users:read" (split (scopes app)) = true ->
  outcome (serve w credentials (GET_users discord_id) s)
    = match user_row w discord_id s with
      | Some as_json => Ret (as_json (scope_in "games:read" (split (scopes app))))
      | None => Raise (HTTPError 404 "User not found." [])
      end.
Proof.
  intros Hauth Hscope. unfold serve, bind. rewrite ApiProofs.get_scopes_run, Hauth.
  unfold get_user, bind, call, api_log, raise, ret, outcome. rewrite Hscope. simpl.
  destruct (user_row w discord_id s); done.
Qed.

(** X10.  [GET /games/{id}] with the scope [games:read]: the row of the
    game as JSON, and 404 "Game not found." when there is no row. *)
Theorem get_game_answer credentials game_id s app :
  authenticate w (username credentials) (password credentials) s = Some app ->
  scope_in "games:read" (split (scopes app)) = true ->
  outcome (serve w credentials (GET_games game_id) s)
    = match game_row w game_id s with
      | Some j => Ret j
      | None => Raise (HTTPError 404 "Game not found." [])
      end.
Proof.
  intros Hauth Hscope. unfold serve, bind. rewrite ApiProofs.get_scopes_run, Hauth.
  unfold get_game, bind, call, api_log, raise, ret, outcome. rewrite Hscope. simpl.
  destruct (game_row w game_id s); done.
Qed.

End Reads.

(** ** [split], the parser of the scopes *)

Lemma truthy_append (a b : string) : truthy b = true -> truthy (a ++ b) = true.
Proof. destruct a; [done|]. intros _. reflexivity. Qed.

Lemma no_space_append (a b : string) :
  no_space (a ++ b) = no_space a && no_space b.
Proof.
  induction a as [|c a IH]; [done|].
  change (String c a ++ b) with (String c (a ++ b)). simpl. rewrite IH.
  by rewrite andb_assoc.
Qed.

(** The word being scanned and the words given out are tokens. *)
Lemma split_from_tokens (s : string) (word : option string) :
  (forall x, word = Some x -> token x = true) ->
  Forall (fun x => token x = true) (split_from word s).
Proof.
  revert word. induction s as [|c s IH]; intros word Hword; simpl.
  - destruct word as [x|]; repeat constructor. by apply Hword.
  - destruct (isspace c) eqn:Hc.
    + destruct word as [x|].
      * constructor; [by apply Hword | by apply IH].
      * by apply IH.
    + destruct word as [x|]; apply IH; intros y [= <-].
      * specialize (Hword x eq_refl). unfold token in *.
        apply andb_prop in Hword as [_ Hx].
        rewrite truthy_append by done. rewrite no_space_append, Hx. simpl.
        by rewrite Hc.
      * unfold token. simpl. by rewrite Hc.
Qed.

(** Every string that [split] gives is a token. *)
Lemma split_gives_tokens (s : string) :
  Forall (fun x => token x = true) (split s).
Proof. apply split_from_tokens. done. Qed.

Lemma split_from_space (a b : string) (c : ascii) (word : option string) :
  isspace c = true ->
  split_from word (a ++ String c b) = (split_from word a ++ split_from None b)%list.
Proof.
  intros Hc. revert word. induction a as [|d a IH]; intros word.
  - change ("" ++ String c b) with (String c b). simpl. rewrite Hc.
    by destruct word.
  - change (String d a ++ String c b) with (String d (a ++ String c b)). simpl.
    destruct (isspace d); destruct word; rewrite IH; done.
Qed.

(** X12.  [split] works piece by piece: the tokens of two strings joined
    by a white-space character are the tokens of the first followed by the
    tokens of the second. *)
Theorem split_at_space (a b : string) (c : ascii) :
  isspace c = true ->
  split (a ++ String c b) = (split a ++ split b)%list.
Proof. intros Hc. by apply split_from_space. Qed.

Lemma split_blank (s : string) : blank s = true -> split s = [].
Proof.
  unfold split. induction s as [|c s IH]; [done|]. simpl.
  intros H. apply andb_prop in H as [-> H]. by apply IH.
Qed.

Section BlankScopes.
Context {Store : Type}.
Variable w : World Store.

(** X11.  Every scope that [get_scopes] returns is a token: it is not
    empty and holds no white space, however the scopes are stored (leading,
    trailing or repeated white space, tabs, line ends). *)
Theorem get_scopes_gives_tokens credentials s granted :
  outcome (get_scopes w credentials s) = Ret granted ->
  Forall (fun x => token x = true) granted.
Proof.
  rewrite ApiProofs.get_scopes_run.
  destruct (authenticate w (username credentials) (password credentials) s) as [app|];
    [|done].
  unfold outcome. simpl. intros [= <-]. apply split_gives_tokens.
Qed.

(** X13.  An application whose stored scopes are empty or white space only
    authenticates and is then refused every operation with 403; nothing is
    read, written or resolved for it. *)
Theorem blank_scopes_forbid_everything credentials request s app :
  authenticate w (username credentials) (password credentials) s = Some app ->
  blank (scopes app) = true ->
  outcome (serve w credentials request s)
    = Raise (HTTPError 403 ("Not authorised for scope " ++ required_scope request ++ ".") [])
  /\ status (respond (outcome (serve w credentials request s))) = 403
  /\ store (serve w credentials request s) = s.
Proof.
  intros Hauth Hblank. unfold serve, bind.
  rewrite ApiProofs.get_scopes_run, Hauth, (split_blank _ Hblank).
  unfold outcome, store.
  destruct request as [discord_id|game_id|body];
    [unfold get_user | unfold get_game | unfold new_game]; simpl; done.
Qed.

End BlankScopes.

End ApiMore.

(* ===================================================================== *)
(** * More on the command surface *)
(* ===================================================================== *)

Module BotMore.
Import Py Discord Eff Spec Obs Bot.
Local Open Scope eff_scope.

Section Commands.
Context {Store : Type}.
Variable settings : Settings.

(** X14.  For a message that comes from a guild, [get_prefix] raises
    nothing and leaves the store: it returns the two mention triggers
    followed by one prefix, the one of the guild when [settings.config]
    holds the guild and the default one otherwise, and it logs only in the
    second case. *)
Theorem get_prefix_of_guild bot message guild (s : Store) :
  message_guild message = Some guild ->
  let known := config settings !! guild_id guild in
  outcome (get_prefix settings bot message s)
    = Ret (when_mentioned bot message
             ++ [match known with
                 | Some _ => guild_setting settings (guild_id guild) "command_prefix"
                 | None => get_setting settings "command_prefix"
                 end])%list
  /\ store (get_prefix settings bot message s) = s
  /\ (trace (get_prefix settings bot message s) = [] <-> is_Some known).
Proof.
  intros Hguild known. subst known. unfold get_prefix. rewrite Hguild.
  destruct (config settings !! guild_id guild) as [c|]; simpl.
  - repeat split; eauto.
  - repeat split; [done|]. by intros [? ?].
Qed.

Lemma role_lt_irrefl (g : Guild) (r : Role) : role_lt g r r = false.
Proof.
  unfold role_lt. destruct (role_id r =? guild_id g); [done|].
  rewrite Z.ltb_irrefl, Z.eqb_refl. apply Z.ltb_irrefl.
Qed.

(** X15.  Outside the main server the rank is not looked at: every
    command of a guild is allowed, whoever its author and whatever the
    roles, and the author is sent nothing. *)
Theorem other_servers_skip_the_rank ctx guild (s : Store) :
  ctx_guild ctx = Some guild ->
  guild_id guild <> server_ids_main settings ->
  gatekeeper settings ctx s = (Ret allowed, s, []).
Proof.
  intros Hguild Hother. apply Z.eqb_neq in Hother.
  unfold gatekeeper, globally_block_dms, is_user, bind, ret.
  rewrite Hguild, Hother. done.
Qed.

(** X16.  On the main server a member whose top role is the role named
    "Rider" itself is allowed: the rank to attain is included. *)
Theorem rider_is_allowed ctx guild rider (s : Store) :
  ctx_guild ctx = Some guild ->
  guild_id guild = server_ids_main settings ->
  utils_get_role (guild_roles guild) "Rider" = Some rider ->
  top_role (ctx_author ctx) = rider ->
  gatekeeper settings ctx s = (Ret allowed, s, []).
Proof.
  intros Hguild Hmain Hrole Htop. apply Z.eqb_eq in Hmain.
  unfold gatekeeper, globally_block_dms, is_user, bind, ret.
  rewrite Hguild, Hmain, Hrole, Htop, role_lt_irrefl. done.
Qed.

(** X17.  On the main server a member whose top role is below the role
    named "Rider" is denied: the command is not run, and the one message
    the member gets is the request to attain the rank; the failure of the
    check that follows is on the ignored list and adds no reply. *)
Theorem below_rider_is_told_once ctx command guild rider (s : Store) :
  ctx_guild ctx = Some guild ->
  guild_id guild = server_ids_main settings ->
  utils_get_role (guild_roles guild) "Rider" = Some rider ->
  role_lt guild (top_role (ctx_author ctx)) rider = true ->
  outcome (gatekeeper settings ctx s) = Ret denied_insufficient_role
  /\ outcome (invoke settings ctx command s) = Ret tt
  /\ List.filter is_send (trace (invoke settings ctx command s))
     = [Send (ctx_channel ctx)
          ("You must attain " ++ dquote ++ "Rider" ++ dquote ++ " role to use this bot")]
  /\ List.filter is_dispatch (trace (invoke settings ctx command s)) = [].
Proof.
  intros Hguild Hmain Hrole Hlow. apply Z.eqb_eq in Hmain.
  assert (Hgate : gatekeeper settings ctx s
                  = (Ret denied_insufficient_role, s,
                     [Send (ctx_channel ctx)
                        ("You must attain " ++ dquote ++ "Rider" ++ dquote
                           ++ " role to use this bot")])).
  { unfold gatekeeper, globally_block_dms, is_user, bind, ret, call.
    rewrite Hguild, Hmain, Hrole, Hlow. done. }
  unfold invoke, bind. rewrite Hgate. unfold outcome, trace, on_command_error. simpl.
  destruct (hasattr_on_error (ctx_command ctx)); done.
Qed.

(** X18.  On the main server with no role named "Rider", the comparison
    of the member's role with nothing raises a [TypeError]: the check
    gives no verdict, the command is not run and the member is sent
    nothing. *)
Theorem missing_rider_role_raises ctx command guild (s : Store) :
  ctx_guild ctx = Some guild ->
  guild_id guild = server_ids_main settings ->
  utils_get_role (guild_roles guild) "Rider" = None ->
  invoke settings ctx command s
    = (Raise (Uncaught
                (mkExc TypeError
                   "'<' not supported between instances of 'Role' and 'NoneType'" [])),
       s, []).
Proof.
  intros Hguild Hmain Hrole. apply Z.eqb_eq in Hmain.
  unfold invoke, gatekeeper, globally_block_dms, is_user, bind, ret, raise.
  rewrite Hguild, Hmain, Hrole. done.
Qed.




(** X20.  [on_command_error] stays silent for a command that has an error
    handler of its own, and for an exception whose class is one of the
    three ignored classes or derives from one of them at any depth: no
    reply is sent and nothing is printed; in the first case nothing is
    logged either. *)
Theorem on_command_error_silent ctx exc (s : Store) :
  hasattr_on_error (ctx_command ctx) = true
  \/ (exists base, In base ignored /\ issubclass (exc_class exc) base = true) ->
  outcome (on_command_error ctx exc s) = Ret tt
  /\ store (on_command_error ctx exc s) = s
  /\ List.filter is_send (trace (on_command_error ctx exc s)) = []
  /\ List.filter is_stdout (trace (on_command_error ctx exc s)) = []
  /\ (hasattr_on_error (ctx_command ctx) = true -> trace (on_command_error ctx exc s) = []).
Proof.
  intros Hsilent. unfold on_command_error.
  destruct (hasattr_on_error (ctx_command ctx)) eqn:Hlocal; [done|].
  destruct Hsilent as [|(base & Hin & Hsub)]; [done|].
  assert (Hignored : isinstance_any exc ignored = true).
  { unfold isinstance_any. apply existsb_exists. by exists base. }
  rewrite Hignored. done.
Qed.

End Commands.

End BotMore.

(* ===================================================================== *)
(** * Loading the extensions *)
(* ===================================================================== *)

Module StartupProofs.
Import Py Eff Spec Obs Startup.
Local Open Scope eff_scope.

Section Loader.
Context {Store : Type}.
Variable load : string -> Store -> option PyExc * Store.

(** The loop over two lists in a row. *)
Lemma load_extensions_app (before after : list string) (s : Store) :
  load_extensions load (before ++ after) s
  = (load_extensions load before ;;; load_extensions load after) s.
Proof.
  revert s. induction before as [|name before IH]; intros s.
  - simpl. by rewrite EffProofs.bind_ret_l.
  - simpl. unfold bind.
    destruct (load_extension load name s) as [[[[]|e] s1] t1]; [|done].
    destruct (try_except _ _ _ s1) as [[[[]|e] s2] t2]; [|done].
    rewrite IH. unfold bind.
    destruct (load_extensions load before s2) as [[[[]|e] s3] t3]; [|done].
    destruct (load_extensions load after s3) as [[r s4] t4].
    by rewrite <- !app_assoc.
Qed.

(** X21.  The first of the two loads of an extension is outside the
    [try]: when it raises, the loop ends there with that exception, the
    extensions that come after are not loaded, and nothing is printed for
    the one that failed. *)
Theorem first_load_failure_ends_the_loop before name after (s s1 s2 : Store) t e :
  load_extensions load before s = (Ret tt, s1, t) ->
  load name s1 = (Some e, s2) ->
  load_extensions load (before ++ name :: after) s = (Raise (Uncaught e), s2, t).
Proof.
  intros Hbefore Hload. rewrite load_extensions_app. unfold bind at 1.
  rewrite Hbefore. simpl. unfold bind, load_extension. rewrite Hload.
  by rewrite app_nil_r.
Qed.

(** X22.  With a loader that refuses an extension it holds already, the
    second load of each extension raises inside the [try]: a loop that
    ends normally has printed one "Failed to load extension" line for each
    extension, in order, although each one was loaded. *)
Theorem each_extension_is_reported_failed extensions (s : Store) :
  refuses_reload load ->
  outcome (load_extensions load extensions s) = Ret tt ->
  Forall2 (fun name c =>
             exists e, c = Stdout ("Failed to load extension " ++ name ++ ": " ++ exc_str e))
    extensions (trace (load_extensions load extensions s)).
Proof.
  intros Hreload. revert s. induction extensions as [|name rest IH]; intros s.
  - intros _. constructor.
  - simpl. unfold outcome, trace, bind, try_except, load_extension, call.
    destruct (load name s) as [[e|] s1] eqn:Hfirst; [done|].
    destruct (Hreload _ _ _ Hfirst) as (e & Hsecond & Hclass).
    rewrite Hsecond, Hclass. simpl.
    specialize (IH s1). unfold outcome, trace in IH.
    destruct (load_extensions load rest s1) as [[[[]|e'] s2] t2]; simpl in *; [|done].
    intros _. constructor; [by exists e | by apply IH].
Qed.

End Loader.

End StartupProofs.

(* ===================================================================== *)
(** * The further properties at work in the small world *)
(* ===================================================================== *)

Module MoreRuns.
Import Py Discord Eff Api Spec Obs Demo Cases.

Abbreviation resolving game :=
  (for_each (fun side =>
               for_each (fun discord_id => get_discord_member world (guild_id game) discord_id)
                 side)
     (sides_discord_ids game) ([] : Games)).

(** Member 8 does not exist: the request stops there, 9 is never asked
    for and nothing is created. *)
Lemma new_game_all_or_nothing_witness :
  (scope_in "games:new" ["games:new"] = true
   /\ outcome (resolving stops_at_8) = member_not_found 8)
  /\ outcome (new_game world stops_at_8 ["games:new"] []) = member_not_found 8
  /\ store (new_game world stops_at_8 ["games:new"] []) = []
  /\ persistence (trace (new_game world stops_at_8 ["games:new"] [])) = [].
Proof.
  assert (H : outcome (resolving stops_at_8) = member_not_found 8)
    by (vm_compute; reflexivity).
  split; [done|].
  exact (ApiMore.new_game_all_or_nothing world stops_at_8 ["games:new"] [] _ eq_refl H).
Defined.

Lemma looked_up_until_8 :
  looked_up (trace (new_game world stops_at_8 ["games:new"] [])) = [5; 7; 8].
Proof. vm_compute. reflexivity. Qed.

Lemma created_groups_follow_request_witness :
  In (CreateGame uneven_args) (trace (new_game world uneven ["games:new"] []))
  /\ Forall2 (Forall2 (resolved_by world 1)) [[5; 6]; [7]] (discord_groups uneven_args).
Proof.
  assert (H : In (CreateGame uneven_args) (trace (new_game world uneven ["games:new"] []))).
  { vm_compute. repeat (first [left; reflexivity | right]). }
  split; [exact H|].
  exact (proj1 (ApiMore.created_groups_follow_request world uneven ["games:new"] []
                  uneven_args H)).
Defined.

Lemma new_game_no_identity_witness :
  (scope_in "games:new" ["games:new"] = true
   /\ concat (sides_discord_ids no_identity) = [])
  /\ client_calls (trace (new_game world no_identity ["games:new"] [])) = [].
Proof.
  split; [done|].
  exact (proj1 (ApiMore.new_game_no_identity world no_identity ["games:new"] []
                  eq_refl eq_refl)).
Defined.

Lemma new_game_unknown_guild_witness :
  (scope_in "games:new" ["games:new"] = true
   /\ client_guilds world !! guild_id unknown_guild = None
   /\ concat (sides_discord_ids unknown_guild) <> [])
  /\ outcome (new_game world unknown_guild ["games:new"] [])
     = Raise (HTTPError 404 "Discord guild not found by ID 3." []).
Proof.
  assert (H1 : client_guilds world !! guild_id unknown_guild = None)
    by (vm_compute; reflexivity).
  assert (H2 : concat (sides_discord_ids unknown_guild) <> []) by discriminate.
  split; [done|].
  by rewrite (ApiMore.new_game_unknown_guild world unknown_guild ["games:new"] []
                eq_refl H1 H2).
Defined.

Lemma new_game_create_crash_witness :
  (scope_in "games:new" ["games:new"] = true
   /\ create_game world_create_crashes with_note_args [] = (inl database_locked, [])
   /\ isinstance database_locked ValueError = false)
  /\ status (respond (outcome (new_game world_create_crashes with_note ["games:new"] [])))
     = 500
  /\ saves (trace (new_game world_create_crashes with_note ["games:new"] [])) = [].
Proof.
  assert (Hres : for_each (fun side =>
                   for_each (fun discord_id =>
                               get_discord_member world_create_crashes (guild_id with_note)
                                 discord_id)
                     side)
                   (sides_discord_ids with_note) ([] : Games)
                 = (Ret with_note_members, [], with_note_calls))
    by (vm_compute; reflexivity).
  split; [done|].
  destruct (ApiMore.new_game_create_crash world_create_crashes with_note ["games:new"] []
              with_note_members [] with_note_calls database_locked []
              eq_refl Hres eq_refl eq_refl) as (_ & Hstatus & Hsaves).
  done.
Defined.

Lemma new_game_cached_members_witness :
  (client_guilds world !! guild_id two_sides = Some guild1
   /\ forall u, In u (concat (sides_discord_ids two_sides)) ->
                is_Some (guild_members guild1 !! u))
  /\ fetches (trace (new_game world two_sides ["games:new"] [])) = [].
Proof.
  assert (H1 : client_guilds world !! guild_id two_sides = Some guild1)
    by (vm_compute; reflexivity).
  assert (H2 : forall u, In u (concat (sides_discord_ids two_sides)) ->
                         is_Some (guild_members guild1 !! u)).
  { intros u [<-|[<-|[]]]; vm_compute; eauto. }
  split; [done|].
  exact (ApiMore.new_game_cached_members world two_sides ["games:new"] [] guild1 H1 H2).
Defined.

Lemma get_routes_only_read_witness :
  (forall body, GET_games 1 <> POST_game_new body)
  /\ store (serve world app1 (GET_games 1) [mkGame 1 ""]) = [mkGame 1 ""]
  /\ persistence (trace (serve world app1 (GET_games 1) [mkGame 1 ""])) = [].
Proof.
  assert (H : forall body, GET_games 1 <> POST_game_new body) by discriminate.
  split; [done|].
  destruct (ApiMore.get_routes_only_read world app1 (GET_games 1) [mkGame 1 ""] H)
    as (Hstore & Hpers & _).
  done.
Defined.

Lemma get_user_answer_witness :
  (authenticate world_with_user "reader" "r" [] = Some (mkApp "users:read")
   /\ scope_in "users:read" (split "users:read") = true)
  /\ outcome (serve world_with_user reader (GET_users 5) []) = Ret (user_json false)
  /\ outcome (serve world_with_user reader (GET_users 6) [])
     = Raise (HTTPError 404 "User not found." []).
Proof.
  split; [done|]. split.
  - exact (ApiMore.get_user_answer world_with_user reader 5 [] (mkApp "users:read")
             eq_refl eq_refl).
  - exact (ApiMore.get_user_answer world_with_user reader 6 [] (mkApp "users:read")
             eq_refl eq_refl).
Defined.

Lemma get_game_answer_witness :
  (authenticate world "app1" "secret1" [mkGame 1 ""] = Some (mkApp "games:read games:new")
   /\ scope_in "games:read" (split "games:read games:new") = true)
  /\ outcome (serve world app1 (GET_games 1) [mkGame 1 ""])
     = Ret (JObj [("id", JInt 1); ("notes", JStr "")])
  /\ outcome (serve world app1 (GET_games 2) [mkGame 1 ""])
     = Raise (HTTPError 404 "Game not found." []).
Proof.
  split; [done|]. split.
  - exact (ApiMore.get_game_answer world app1 1 [mkGame 1 ""]
             (mkApp "games:read games:new") eq_refl eq_refl).
  - exact (ApiMore.get_game_answer world app1 2 [mkGame 1 ""]
             (mkApp "games:read games:new") eq_refl eq_refl).
Defined.

Lemma get_scopes_gives_tokens_witness :
  outcome (get_scopes world_with_user (mkCreds "tabs" "t") [])
    = Ret ["users:read"; "games:read"]
  /\ Forall (fun x => token x = true) ["users:read"; "games:read"].
Proof.
  assert (H : outcome (get_scopes world_with_user (mkCreds "tabs" "t") [])
              = Ret ["users:read"; "games:read"]) by (vm_compute; reflexivity).
  split; [exact H|].
  exact (ApiMore.get_scopes_gives_tokens world_with_user (mkCreds "tabs" "t") [] _ H).
Defined.

Lemma split_at_space_witness :
  isspace "009" = true
  /\ split ("users:read  " ++ String "009" " games:new") = ["users:read"; "games:new"].
Proof.
  split; [reflexivity|].
  by rewrite (ApiMore.split_at_space "users:read  " " games:new" "009" eq_refl).
Defined.

Lemma blank_scopes_forbid_everything_witness :
  (authenticate world_with_user "blank" "b" [] = Some (mkApp "   ")
   /\ blank "   " = true)
  /\ status (respond (outcome (serve world_with_user blank_app (GET_users 5) []))) = 403
  /\ status (respond (outcome (serve world_with_user blank_app (POST_game_new bare_body) [])))
     = 403.
Proof.
  split; [done|]. split.
  - exact (proj1 (proj2 (ApiMore.blank_scopes_forbid_everything world_with_user blank_app
                           (GET_users 5) [] (mkApp "   ") eq_refl eq_refl))).
  - exact (proj1 (proj2 (ApiMore.blank_scopes_forbid_everything world_with_user blank_app
                           (POST_game_new bare_body) [] (mkApp "   ") eq_refl eq_refl))).
Defined.

(** ** The command surface *)

Lemma get_prefix_of_guild_witness :
  Bot.message_guild from_guild1 = Some guild1
  /\ outcome (Bot.get_prefix settings polybot from_guild1 ([] : Games))
     = Ret ["<@42> "; "<@!42> "; "$"]
  /\ trace (Bot.get_prefix settings polybot from_guild1 ([] : Games)) = [].
Proof.
  split; [done|].
  destruct (BotMore.get_prefix_of_guild settings polybot from_guild1 guild1 ([] : Games)
              eq_refl) as (Hout & _ & Htrace).
  split.
  - rewrite Hout. vm_compute. reflexivity.
  - apply Htrace. vm_compute. eauto.
Defined.

Lemma get_prefix_direct_message_witness :
  Bot.message_guild private = None
  /\ outcome (Bot.get_prefix settings polybot private ([] : Games))
     = Raise (Uncaught (mkExc AttributeError "'NoneType' object has no attribute 'id'" [])).
Proof.
  split; [done|].
  by rewrite (BotProofs.get_prefix_direct_message settings polybot private ([] : Games)
                eq_refl).
Defined.

Lemma other_servers_skip_the_rank_witness :
  (Bot.ctx_guild in_guild2 = Some guild2
   /\ Discord.guild_id guild2 <> Bot.server_ids_main settings)
  /\ Bot.gatekeeper settings in_guild2 ([] : Games) = (Ret Bot.allowed, [], []).
Proof.
  assert (H : Discord.guild_id guild2 <> Bot.server_ids_main settings) by discriminate.
  split; [done|].
  exact (BotMore.other_servers_skip_the_rank settings in_guild2 guild2 [] eq_refl H).
Defined.

Lemma rider_is_allowed_witness :
  (Bot.ctx_guild in_guild1 = Some guild1
   /\ Discord.guild_id guild1 = Bot.server_ids_main settings
   /\ utils_get_role (guild_roles guild1) "Rider" = Some rider
   /\ top_role (Bot.ctx_author in_guild1) = rider)
  /\ Bot.gatekeeper settings in_guild1 ([] : Games) = (Ret Bot.allowed, [], []).
Proof.
  split; [done|].
  exact (BotMore.rider_is_allowed settings in_guild1 guild1 rider []
           eq_refl eq_refl eq_refl eq_refl).
Defined.

Lemma below_rider_is_told_once_witness :
  (Bot.ctx_guild newcomer_in_guild1 = Some guild1
   /\ Discord.guild_id guild1 = Bot.server_ids_main settings
   /\ utils_get_role (guild_roles guild1) "Rider" = Some rider
   /\ role_lt guild1 (top_role (Bot.ctx_author newcomer_in_guild1)) rider = true)
  /\ List.filter Bot.is_send
       (trace (Bot.invoke settings newcomer_in_guild1 newgame ([] : Games)))
     = [Send 78 ("You must attain " ++ Bot.dquote ++ "Rider" ++ Bot.dquote
                   ++ " role to use this bot")]
  /\ List.filter Bot.is_dispatch
       (trace (Bot.invoke settings newcomer_in_guild1 newgame ([] : Games))) = [].
Proof.
  split; [done|].
  destruct (BotMore.below_rider_is_told_once settings newcomer_in_guild1 newgame guild1
              rider ([] : Games) eq_refl eq_refl eq_refl eq_refl)
    as (_ & _ & Hsend & Hdispatch).
  done.
Defined.

Lemma missing_rider_role_raises_witness :
  (Bot.ctx_guild in_guild2 = Some guild2
   /\ Discord.guild_id guild2 = Bot.server_ids_main settings_main2
   /\ utils_get_role (guild_roles guild2) "Rider" = None)
  /\ store (Bot.invoke settings_main2 in_guild2 newgame ([] : Games)) = []
  /\ trace (Bot.invoke settings_main2 in_guild2 newgame ([] : Games)) = [].
Proof.
  split; [done|].
  by rewrite (BotMore.missing_rider_role_raises settings_main2 in_guild2 newgame guild2
                ([] : Games) eq_refl eq_refl eq_refl).
Defined.

Lemma on_command_error_silent_witness :
  (In UserInputError Bot.ignored
   /\ issubclass (exc_class bad_argument) UserInputError = true)
  /\ List.filter Bot.is_send (trace (Bot.on_command_error in_guild1 bad_argument
                                       ([] : Games))) = []
  /\ List.filter is_stdout (trace (Bot.on_command_error in_guild1 bad_argument
                                     ([] : Games))) = [].
Proof.
  assert (H1 : In UserInputError Bot.ignored) by (right; left; reflexivity).
  assert (H2 : issubclass (exc_class bad_argument) UserInputError = true) by reflexivity.
  split; [done|].
  destruct (BotMore.on_command_error_silent in_guild1 bad_argument ([] : Games)
              (or_intror (ex_intro _ UserInputError (conj H1 H2))))
    as (_ & _ & Hsend & Hprint & _).
  done.
Defined.

(** ** Start-up *)

(** The loader of this world refuses what it holds. *)
Lemma loader_refuses_reload : refuses_reload loader.
Proof.
  intros name loaded loaded'. unfold loader.
  destruct (existsb (String.eqb name) loaded) eqn:Hheld; [done|].
  destruct (String.eqb name "modules.broken"); [done|].
  intros [= <-].
  assert (Hnow : existsb (String.eqb name) (loaded ++ [name]) = true).
  { rewrite existsb_app. simpl. by rewrite String.eqb_refl, orb_true_r. }
  rewrite Hnow. eexists. split; reflexivity.
Qed.

Lemma first_load_failure_ends_the_loop_witness :
  (Startup.load_extensions loader ["modules.games"] []
   = (Ret tt, ["modules.games"], [reported "modules.games"])
   /\ loader "modules.broken" ["modules.games"] = (Some no_such_module, ["modules.games"]))
  /\ Startup.load_extensions loader ["modules.games"; "modules.broken"; "modules.help"] []
     = (Raise (Uncaught no_such_module), ["modules.games"], [reported "modules.games"]).
Proof.
  assert (H1 : Startup.load_extensions loader ["modules.games"] []
               = (Ret tt, ["modules.games"], [reported "modules.games"]))
    by (vm_compute; reflexivity).
  split; [split; [exact H1 | reflexivity]|].
  exact (StartupProofs.first_load_failure_ends_the_loop loader
           ["modules.games"] "modules.broken" ["modules.help"] [] _ _ _ _ H1 eq_refl).
Defined.

Lemma each_extension_is_reported_failed_witness :
  outcome (Startup.load_extensions loader Startup.initial_extensions []) = Ret tt
  /\ length (trace (Startup.load_extensions loader Startup.initial_extensions [])) = 4%nat.
Proof.
  assert (H : outcome (Startup.load_extensions loader Startup.initial_extensions [])
              = Ret tt) by (vm_compute; reflexivity).
  split; [exact H|].
  rewrite <- (Forall2_length _ _ _
                (StartupProofs.each_extension_is_reported_failed loader
                   Startup.initial_extensions [] loader_refuses_reload H)).
  reflexivity.
Defined.

End MoreRuns.
